(** * NgbDropdown: the open/close controller of src/dropdown/dropdown.ts

    A shallow embedding of the [NgbDropdown] directive and of the helper
    directives it talks to ([NgbDropdownMenu], [NgbDropdownAnchor]).  The
    directive is stateful JavaScript: every method reads and assigns fields
    of [this], calls the renderer, and may raise a [TypeError] when it
    dereferences an absent content child.  Methods are therefore embedded as
    computations of a small state-and-exception monad over a [State] that
    holds the directive instance together with the part of the page it
    touches. *)

From stdpp Require Import base gmap strings list.

(** ** JavaScript completions *)

Module Js.

Inductive Error := TypeError (msg : string).

(** A call either returns normally or raises.  A raised error keeps every
    assignment done before the faulting expression. *)
Inductive Completion (A : Type) :=
  | Normal (a : A)
  | Throw (e : Error).
Arguments Normal {A} a.
Arguments Throw {A} e.

Definition M (St A : Type) : Type := St -> Completion A * St.

Definition ret {St A} (a : A) : M St A := fun s => (Normal a, s).

Definition throw {St A} (e : Error) : M St A := fun s => (Throw e, s).

Definition bind {St A B} (m : M St A) (k : A -> M St B) : M St B :=
  fun s =>
    match m s with
    | (Normal a, s') => k a s'
    | (Throw e, s') => (Throw e, s')
    end.

Definition gets {St A} (f : St -> A) : M St A := fun s => (Normal (f s), s).

Definition modify {St} (f : St -> St) : M St unit := fun s => (Normal tt, f s).

(** The state a call leaves behind, however it completed. *)
Definition after {St A} (r : Completion A * St) : St := snd r.

Definition returns {St A} (r : Completion A * St) : bool :=
  match fst r with
  | Normal _ => true
  | Throw _ => false
  end.

End Js.

Declare Scope js_scope.
Delimit Scope js_scope with js.
Notation "x <- m ;; k" := (Js.bind m (fun x => k))
  (at level 100, m at next level, k at level 200, right associativity) : js_scope.
Notation "m ;; k" := (Js.bind m (fun _ => k))
  (at level 100, k at level 200, right associativity) : js_scope.
Open Scope js_scope.

(** ** The page: elements, classes, styles, document listeners *)

Module Dom.

Definition Node := nat.

(** What [Renderer2] and the [document] give access to: the class list and
    the inline styles of each element, the parent of each attached element,
    and the live ['click'] listeners on [document], oldest first.  Elements
    and listeners are numbered; [nextNode] and [nextListener] number the
    next ones created.  The calls of the renderer never raise. *)
Record t := mk {
  classList : gmap Node (list string);
  style : gmap (Node * string) string;
  parentNode : gmap Node Node;
  nextNode : Node;
  clickListeners : list nat;
  nextListener : nat
}.

Definition createElement (d : t) : Node * t :=
  (nextNode d,
   mk (classList d) (style d) (parentNode d) (S (nextNode d))
      (clickListeners d) (nextListener d)).

Definition appendChild (parent child : Node) (d : t) : t :=
  mk (classList d) (style d) (<[child := parent]> (parentNode d)) (nextNode d)
     (clickListeners d) (nextListener d).

(** [removeChild(parent, child)] detaches a child of [parent].  The browser
    raises when [child] is not a child of [parent]; the directive only passes
    the container it has put under [document.body], and where a statement
    depends on it that situation is a hypothesis ([container_under_body]). *)
Definition removeChild (parent child : Node) (d : t) : t :=
  mk (classList d) (style d)
     (if decide (parentNode d !! child = Some parent)
      then delete child (parentNode d) else parentNode d)
     (nextNode d) (clickListeners d) (nextListener d).

Definition setStyle (el : Node) (name value : string) (d : t) : t :=
  mk (classList d) (<[(el, name) := value]> (style d)) (parentNode d) (nextNode d)
     (clickListeners d) (nextListener d).

Definition removeStyle (el : Node) (name : string) (d : t) : t :=
  mk (classList d) (delete (el, name) (style d)) (parentNode d) (nextNode d)
     (clickListeners d) (nextListener d).

Definition classesOf (el : Node) (d : t) : list string :=
  default [] (classList d !! el).

Definition addClass (el : Node) (name : string) (d : t) : t :=
  mk (if decide (name ∈ classesOf el d) then classList d
      else <[el := classesOf el d ++ [name]]> (classList d))
     (style d) (parentNode d) (nextNode d) (clickListeners d) (nextListener d).

Definition removeClass (el : Node) (name : string) (d : t) : t :=
  mk (if decide (name ∈ classesOf el d)
      then <[el := filter (fun c => c ≠ name) (classesOf el d)]> (classList d)
      else classList d)
     (style d) (parentNode d) (nextNode d) (clickListeners d) (nextListener d).

(** [renderer.listen('document', 'click', cb)]: the listener is added and
    the call returns the function that removes it, here the listener's
    number. *)
Definition listen (d : t) : nat * t :=
  (nextListener d,
   mk (classList d) (style d) (parentNode d) (nextNode d)
      (clickListeners d ++ [nextListener d]) (S (nextListener d))).

Definition unlisten (l : nat) (d : t) : t :=
  mk (classList d) (style d) (parentNode d) (nextNode d)
     (filter (fun l' => l' ≠ l) (clickListeners d)) (nextListener d).

(** [a.contains(b)]: [b] is [a] or a descendant of [a].  The walk towards
    the root follows at most as many links as the page has. *)
Fixpoint climbs (fuel : nat) (parents : gmap Node Node) (a b : Node) : bool :=
  if decide (a = b) then true
  else match fuel with
       | O => false
       | S fuel' =>
           match parents !! b with
           | Some p => climbs fuel' parents a p
           | None => false
           end
       end.

Definition contains (d : t) (a b : Node) : bool :=
  climbs (size (parentNode d)) (parentNode d) a b.

End Dom.

(** ** Values of the inputs *)

(** [autoClose: boolean | 'outside' | 'inside'] *)
Inductive AutoClose := AcFalse | AcTrue | AcOutside | AcInside.

(** [container: null | 'body'] *)
Inductive Container := CNull | CBody.

(** A [Placement] is a string such as ["top-left"]; the [placement] field is
    typed [PlacementArray = Placement | Array<Placement>] and is left
    [undefined] when it is assigned the first entry of an empty array. *)
Definition Placement := string.

Inductive PlacementArray :=
| PUndefined
| PSingle (p : Placement)
| PArray (ps : list Placement).

(** [$event] of a click: the button index and the element it hit. *)
Record MouseEvent := { button : Z; target : Dom.Node }.

(** Angular's [SimpleChange]; [previousValue] and [currentValue] are never
    read by the directive.  [isFirstChange] is a method of the class. *)
Record SimpleChange := { firstChange : bool }.

Definition isFirstChange (c : SimpleChange) (_ : unit) : bool := firstChange c.

(** [SimpleChanges]: an object keyed by input name. *)
Abbreviation SimpleChanges := (gmap string SimpleChange).

(** ** The directives *)

Record NgbDropdownMenu := {
  menu_placement : option Placement;
  menu_isOpen : bool;
  menu_nativeElement : Dom.Node
}.

Record NgbDropdownAnchor := { anchorEl : Dom.Node }.

(** [isEventFrom($event)] of the menu and of the anchor:
    [this._elementRef.nativeElement.contains($event.target)] *)
Definition NgbDropdownMenu_isEventFrom (m : NgbDropdownMenu) (e : MouseEvent)
    (d : Dom.t) : bool :=
  Dom.contains d (menu_nativeElement m) (target e).

Definition NgbDropdownAnchor_isEventFrom (a : NgbDropdownAnchor) (e : MouseEvent)
    (d : Dom.t) : bool :=
  Dom.contains d (anchorEl a) (target e).

Record NgbDropdownConfig := {
  config_autoClose : AutoClose;
  config_placement : PlacementArray;
  config_container : Container
}.

(** The fields of an [NgbDropdown] instance.  [_outsideClickListener] holds
    the remove function returned by [listen], named by the listener it
    removes; [nativeElement] is [this._elementRef.nativeElement] and [body]
    is [this._document.body]. *)
Record NgbDropdown := {
  _outsideClickListener : option nat;
  _bodyContainer : option Dom.Node;
  _menu : option NgbDropdownMenu;
  _menuElement : option Dom.Node;
  _anchor : option NgbDropdownAnchor;
  autoClose : AutoClose;
  _open : bool;
  placement : PlacementArray;
  container : Container;
  nativeElement : Dom.Node;
  body : Dom.Node
}.

(** One call of [positionElements], with its four arguments. *)
Record PositionCall := {
  pc_host : Dom.Node;
  pc_target : Dom.Node;
  pc_placement : PlacementArray;
  pc_appendToBody : bool
}.

(** The directive and its collaborators: the page, whether the subscription
    to [ngZone.onStable] is still live, the values emitted on [openChange]
    (oldest first) and the calls made to [positionElements] (oldest first). *)
Record State := {
  self : NgbDropdown;
  dom : Dom.t;
  _zoneSubscription : bool;
  openChange : list bool;
  positionCalls : list PositionCall
}.

(** A method of the directive: it runs on the directive and its page. *)
Definition Method (A : Type) : Type := Js.M State A.

(** ** Assignments to fields *)

Definition with_self (f : NgbDropdown -> NgbDropdown) (s : State) : State :=
  {| self := f (self s); dom := dom s; _zoneSubscription := _zoneSubscription s;
     openChange := openChange s; positionCalls := positionCalls s |}.

Definition with_dom (f : Dom.t -> Dom.t) (s : State) : State :=
  {| self := self s; dom := f (dom s); _zoneSubscription := _zoneSubscription s;
     openChange := openChange s; positionCalls := positionCalls s |}.

Definition set_outsideClickListener (v : option nat) (d : NgbDropdown) : NgbDropdown :=
  {| _outsideClickListener := v; _bodyContainer := _bodyContainer d; _menu := _menu d;
     _menuElement := _menuElement d; _anchor := _anchor d; autoClose := autoClose d;
     _open := _open d; placement := placement d; container := container d;
     nativeElement := nativeElement d; body := body d |}.

Definition set_bodyContainer (v : option Dom.Node) (d : NgbDropdown) : NgbDropdown :=
  {| _outsideClickListener := _outsideClickListener d; _bodyContainer := v; _menu := _menu d;
     _menuElement := _menuElement d; _anchor := _anchor d; autoClose := autoClose d;
     _open := _open d; placement := placement d; container := container d;
     nativeElement := nativeElement d; body := body d |}.

Definition set_menu (v : option NgbDropdownMenu) (d : NgbDropdown) : NgbDropdown :=
  {| _outsideClickListener := _outsideClickListener d; _bodyContainer := _bodyContainer d;
     _menu := v; _menuElement := _menuElement d; _anchor := _anchor d;
     autoClose := autoClose d; _open := _open d; placement := placement d;
     container := container d; nativeElement := nativeElement d; body := body d |}.

Definition set_menuElement (v : option Dom.Node) (d : NgbDropdown) : NgbDropdown :=
  {| _outsideClickListener := _outsideClickListener d; _bodyContainer := _bodyContainer d;
     _menu := _menu d; _menuElement := v; _anchor := _anchor d;
     autoClose := autoClose d; _open := _open d; placement := placement d;
     container := container d; nativeElement := nativeElement d; body := body d |}.

Definition set_anchor (v : option NgbDropdownAnchor) (d : NgbDropdown) : NgbDropdown :=
  {| _outsideClickListener := _outsideClickListener d; _bodyContainer := _bodyContainer d;
     _menu := _menu d; _menuElement := _menuElement d; _anchor := v;
     autoClose := autoClose d; _open := _open d; placement := placement d;
     container := container d; nativeElement := nativeElement d; body := body d |}.

Definition set_autoClose (v : AutoClose) (d : NgbDropdown) : NgbDropdown :=
  {| _outsideClickListener := _outsideClickListener d; _bodyContainer := _bodyContainer d;
     _menu := _menu d; _menuElement := _menuElement d; _anchor := _anchor d;
     autoClose := v; _open := _open d; placement := placement d;
     container := container d; nativeElement := nativeElement d; body := body d |}.

Definition set_open (v : bool) (d : NgbDropdown) : NgbDropdown :=
  {| _outsideClickListener := _outsideClickListener d; _bodyContainer := _bodyContainer d;
     _menu := _menu d; _menuElement := _menuElement d; _anchor := _anchor d;
     autoClose := autoClose d; _open := v; placement := placement d;
     container := container d; nativeElement := nativeElement d; body := body d |}.

Definition set_placement (v : PlacementArray) (d : NgbDropdown) : NgbDropdown :=
  {| _outsideClickListener := _outsideClickListener d; _bodyContainer := _bodyContainer d;
     _menu := _menu d; _menuElement := _menuElement d; _anchor := _anchor d;
     autoClose := autoClose d; _open := _open d; placement := v;
     container := container d; nativeElement := nativeElement d; body := body d |}.

Definition set_container (v : Container) (d : NgbDropdown) : NgbDropdown :=
  {| _outsideClickListener := _outsideClickListener d; _bodyContainer := _bodyContainer d;
     _menu := _menu d; _menuElement := _menuElement d; _anchor := _anchor d;
     autoClose := autoClose d; _open := _open d; placement := placement d;
     container := v; nativeElement := nativeElement d; body := body d |}.

Definition set_menu_placement (v : option Placement) (m : NgbDropdownMenu) : NgbDropdownMenu :=
  {| menu_placement := v; menu_isOpen := menu_isOpen m;
     menu_nativeElement := menu_nativeElement m |}.

(** Reading a field of [this], assigning one, calling the renderer. *)
Definition this {A} (field : NgbDropdown -> A) : Method A :=
  Js.gets (fun s => field (self s)).

Definition assign (f : NgbDropdown -> NgbDropdown) : Method unit :=
  Js.modify (with_self f).

Definition renderer (f : Dom.t -> Dom.t) : Method unit :=
  Js.modify (with_dom f).

Definition renderer_createElement : Method Dom.Node :=
  fun s => let (n, d) := Dom.createElement (dom s) in (Js.Normal n, with_dom (fun _ => d) s).

Definition renderer_listen : Method nat :=
  fun s => let (l, d) := Dom.listen (dom s) in (Js.Normal l, with_dom (fun _ => d) s).

(** [this.openChange.emit(v)] *)
Definition emit (v : bool) : Method unit :=
  Js.modify (fun s =>
    {| self := self s; dom := dom s; _zoneSubscription := _zoneSubscription s;
       openChange := openChange s ++ [v]; positionCalls := positionCalls s |}).

(** [this._zoneSubscription.unsubscribe()] *)
Definition unsubscribe : Method unit :=
  Js.modify (fun s =>
    {| self := self s; dom := dom s; _zoneSubscription := false;
       openChange := openChange s; positionCalls := positionCalls s |}).

(** ** Truthiness *)

Definition truthy_ref {A} (o : option A) : bool :=
  match o with Some _ => true | None => false end.

(** A string is truthy unless empty; [undefined] is falsy. *)
Definition truthy_placement (p : option Placement) : bool :=
  match p with
  | Some p => negb (String.eqb p "")
  | None => false
  end.

Definition truthy_autoClose (a : AutoClose) : bool :=
  match a with AcFalse => false | _ => true end.

(** A function object, read without being called, is truthy. *)
Definition truthy_function {A B} (f : A -> B) : bool := true.

(** [placement.search('^top') !== -1] *)
Definition search_top (p : Placement) : bool := String.prefix "top" p.

(** ** What callers observe *)

Definition isOpen (s : State) : bool := _open (self s).

Inductive ContainerMode := Inline | Detached.

(** The menu is detached exactly while a body container is held. *)
Definition containerMode (s : State) : ContainerMode :=
  match _bodyContainer (self s) with
  | Some _ => Detached
  | None => Inline
  end.

(** The live outside-click subscriptions of the directive. *)
Definition outsideSubscriptions (s : State) : nat :=
  length (Dom.clickListeners (dom s)).

(** ** The methods of [NgbDropdown] *)

Section Methods.

(** [positionElements] of [../util/positioning] is not part of this file.  It
    reads the geometry of the page and answers with the placement it chose;
    the directive only uses that answer. *)
Variable positionElements :
  Dom.t -> Dom.Node -> Dom.Node -> PlacementArray -> bool -> Placement.

Definition call_positionElements (hostEl targetEl : Dom.Node)
    (pl : PlacementArray) (appendToBody : bool) : Method Placement :=
  fun s =>
    (Js.Normal (positionElements (dom s) hostEl targetEl pl appendToBody),
     {| self := self s; dom := dom s; _zoneSubscription := _zoneSubscription s;
        openChange := openChange s;
        positionCalls :=
          positionCalls s ++ [Build_PositionCall hostEl targetEl pl appendToBody] |}).

Definition _isEventFromToggle (e : MouseEvent) : Method bool :=
  a <- this _anchor ;;
  match a with
  | Some anchor => Js.gets (fun s => NgbDropdownAnchor_isEventFrom anchor e (dom s))
  | None => Js.throw (Js.TypeError "this._anchor is undefined")
  end.

Definition _isEventFromMenu (e : MouseEvent) : Method bool :=
  m <- this _menu ;;
  match m with
  | Some menu => Js.gets (fun s => NgbDropdownMenu_isEventFrom menu e (dom s))
  | None => Js.ret false
  end.

Definition _registerListener : Method unit :=
  l <- renderer_listen ;;
  assign (set_outsideClickListener (Some l)).

Definition _resetContainer : Method unit :=
  me <- this _menuElement ;;
  match me with
  | Some dropdownMenuElement =>
      dropdownElement <- this nativeElement ;;
      renderer (Dom.appendChild dropdownElement dropdownMenuElement) ;;
      renderer (Dom.removeStyle dropdownMenuElement "position") ;;
      renderer (Dom.removeStyle dropdownMenuElement "transform")
  | None => Js.ret tt
  end ;;
  bc <- this _bodyContainer ;;
  match bc with
  | Some bodyContainer =>
      b <- this body ;;
      renderer (Dom.removeChild b bodyContainer) ;;
      assign (set_bodyContainer None)
  | None => Js.ret tt
  end.

Definition _applyContainer (c : Container) : Method unit :=
  _resetContainer ;;
  match c with
  | CBody =>
      me <- this _menuElement ;;
      match me with
      | None => Js.throw (Js.TypeError "this._menuElement is undefined")
      | Some dropdownMenuElement =>
          bc <- this _bodyContainer ;;
          bodyContainer <- match bc with
                           | Some b => Js.ret b
                           | None => renderer_createElement
                           end ;;
          assign (set_bodyContainer (Some bodyContainer)) ;;
          renderer (Dom.setStyle bodyContainer "position" "absolute") ;;
          renderer (Dom.setStyle dropdownMenuElement "position" "static") ;;
          renderer (Dom.appendChild bodyContainer dropdownMenuElement) ;;
          b <- this body ;;
          renderer (Dom.appendChild b bodyContainer)
      end
  | CNull => Js.ret tt
  end.

(** The first candidate of the configured placement:
    [Array.isArray(this.placement) ? this.placement[0] : this.placement] *)
Definition configured_placement (pl : PlacementArray) : option Placement :=
  match pl with
  | PArray ps => head ps
  | PSingle p => Some p
  | PUndefined => None
  end.

Definition stored_placement (p : option Placement) : PlacementArray :=
  match p with
  | Some p => PSingle p
  | None => PUndefined
  end.

Definition _applyPlacementClasses (arg : option Placement) : Method unit :=
  m <- this _menu ;;
  match m with
  | None => Js.ret tt
  | Some menu =>
      pl <- (if negb (truthy_placement arg)
             then cur <- this placement ;; Js.ret (configured_placement cur)
             else Js.ret arg) ;;
      dropdownElement <- this nativeElement ;;
      renderer (Dom.removeClass dropdownElement "dropup") ;;
      renderer (Dom.removeClass dropdownElement "dropdown") ;;
      assign (set_placement (stored_placement pl)) ;;
      assign (set_menu (Some (set_menu_placement pl menu))) ;;
      dropdownClass <- match pl with
                       | Some p => Js.ret (if search_top p then "dropup" else "dropdown")
                       | None => Js.throw (Js.TypeError "placement is undefined")
                       end ;;
      renderer (Dom.addClass dropdownElement dropdownClass) ;;
      bc <- this _bodyContainer ;;
      match bc with
      | Some bodyContainer =>
          renderer (Dom.removeClass bodyContainer "dropup") ;;
          renderer (Dom.removeClass bodyContainer "dropdown") ;;
          renderer (Dom.addClass bodyContainer dropdownClass)
      | None => Js.ret tt
      end
  end.

Definition _positionMenu : Method unit :=
  o <- Js.gets isOpen ;;
  m <- this _menu ;;
  if o && truthy_ref m then
    a <- this _anchor ;;
    match a with
    | None => Js.throw (Js.TypeError "this._anchor is undefined")
    | Some anchor =>
        bc <- this _bodyContainer ;;
        targetEl <- match bc with
                    | Some bodyContainer => Js.ret bodyContainer
                    | None =>
                        me <- this _menuElement ;;
                        match me with
                        | Some el => Js.ret el
                        | None => Js.throw (Js.TypeError "this._menuElement is undefined")
                        end
                    end ;;
        pl <- this placement ;;
        c <- this container ;;
        p <- call_positionElements (anchorEl anchor) targetEl pl
               (match c with CBody => true | CNull => false end) ;;
        _applyPlacementClasses (Some p)
    end
  else Js.ret tt.

Definition ngOnInit : Method unit :=
  _applyPlacementClasses None ;;
  o <- this _open ;;
  if o then _registerListener else Js.ret tt.

Definition ngOnChanges (changes : SimpleChanges) : Method unit :=
  o <- this _open ;;
  (if truthy_ref (changes !! "container") && o
   then c <- this container ;; _applyContainer c
   else Js.ret tt) ;;
  match changes !! "placement" with
  | Some change =>
      if negb (truthy_function (isFirstChange change))
      then _applyPlacementClasses None
      else Js.ret tt
  | None => Js.ret tt
  end.

Definition open : Method unit :=
  o <- this _open ;;
  if negb o then
    assign (set_open true) ;;
    c <- this container ;;
    _applyContainer c ;;
    _registerListener ;;
    _positionMenu ;;
    emit true
  else Js.ret tt.

(** [this._outsideClickListener()] *)
Definition call_outsideClickListener : Method unit :=
  l <- this _outsideClickListener ;;
  match l with
  | Some l => renderer (Dom.unlisten l)
  | None => Js.throw (Js.TypeError "this._outsideClickListener is not a function")
  end.

Definition close : Method unit :=
  o <- this _open ;;
  if o then
    assign (set_open false) ;;
    _resetContainer ;;
    call_outsideClickListener ;;
    emit false
  else Js.ret tt.

Definition toggle : Method unit :=
  o <- Js.gets isOpen ;;
  if o then close else open.

Definition closeFromClick (e : MouseEvent) : Method unit :=
  ac <- this autoClose ;;
  guard <- (if truthy_autoClose ac && negb (button e =? 2)%Z
            then fromToggle <- _isEventFromToggle e ;; Js.ret (negb fromToggle)
            else Js.ret false) ;;
  if guard : bool then
    match ac with
    | AcTrue => close
    | AcInside =>
        fromMenu <- _isEventFromMenu e ;;
        if fromMenu : bool then close else Js.ret tt
    | AcOutside =>
        fromMenu <- _isEventFromMenu e ;;
        if negb fromMenu then close else Js.ret tt
    | AcFalse => Js.ret tt
    end
  else Js.ret tt.

Definition closeFromOutsideEsc : Method unit :=
  ac <- this autoClose ;;
  if truthy_autoClose ac then close else Js.ret tt.

Definition ngOnDestroy : Method unit :=
  _resetContainer ;;
  unsubscribe.

(** The callback given to [ngZone.onStable.subscribe] in the constructor,
    as the subscription delivers it: a subscription that was unsubscribed no
    longer delivers, and a callback that raises closes its subscription. *)
Definition closing_on_throw (callback : Method unit) : Method unit :=
  fun s =>
    match callback s with
    | (Js.Normal a, s') => (Js.Normal a, s')
    | (Js.Throw e, s') => (Js.Throw e, Js.after (unsubscribe s'))
    end.

Definition onStable : Method unit :=
  live <- Js.gets _zoneSubscription ;;
  if live : bool then closing_on_throw _positionMenu else Js.ret tt.

End Methods.

(** ** The methods of [NgbDropdownMenu] and [NgbDropdownToggle] *)

(** A menu directive runs on itself and the page. *)
Definition MenuMethod (A : Type) : Type := Js.M (NgbDropdownMenu * Dom.t) A.

(** [this._elementRef.nativeElement.parentNode], handed to the renderer; a
    menu element that is attached nowhere has a [null] parent, on which the
    renderer raises. *)
Definition menu_parentNode : MenuMethod Dom.Node :=
  fun st =>
    match Dom.parentNode (snd st) !! menu_nativeElement (fst st) with
    | Some parent => (Js.Normal parent, st)
    | None => (Js.Throw (Js.TypeError "parentNode is null"), st)
    end.

Definition menu_renderer (f : Dom.t -> Dom.t) : MenuMethod unit :=
  Js.modify (fun st => (fst st, f (snd st))).

Definition NgbDropdownMenu_applyPlacement (_placement : Placement) : MenuMethod unit :=
  parent <- menu_parentNode ;;
  menu_renderer (Dom.removeClass parent "dropup") ;;
  parent <- menu_parentNode ;;
  menu_renderer (Dom.removeClass parent "dropdown") ;;
  Js.modify (fun st => (set_menu_placement (Some _placement) (fst st), snd st)) ;;
  if search_top _placement then
    parent <- menu_parentNode ;;
    menu_renderer (Dom.addClass parent "dropup")
  else
    parent <- menu_parentNode ;;
    menu_renderer (Dom.addClass parent "dropdown").

Section MenuMethods.

Variable positionElements :
  Dom.t -> Dom.Node -> Dom.Node -> PlacementArray -> bool -> Placement.

(** [position(triggerEl, placement)]: [positionElements] is called without
    its fourth argument. *)
Definition NgbDropdownMenu_position (triggerEl : Dom.Node) (pl : PlacementArray)
    : MenuMethod unit :=
  p <- Js.gets (fun st =>
         positionElements (snd st) triggerEl (menu_nativeElement (fst st)) pl false) ;;
  NgbDropdownMenu_applyPlacement p.

(** [NgbDropdownToggle.toggleOpen()]: [this.dropdown.toggle()] *)
Definition NgbDropdownToggle_toggleOpen : Method unit := toggle positionElements.

End MenuMethods.

(** The placement [_applyPlacementClasses(arg)] applies: its argument when
    truthy, else the first candidate of the [placement] field. *)
Definition applied_placement (arg : option Placement) (s : State) : option Placement :=
  if truthy_placement arg then arg else configured_placement (placement (self s)).

(** The element [_positionMenu] hands to [positionElements]:
    [this._bodyContainer || this._menuElement.nativeElement] *)
Definition position_target (s : State) : option Dom.Node :=
  match _bodyContainer (self s) with
  | Some bodyContainer => Some bodyContainer
  | None => _menuElement (self s)
  end.

Definition has_class (d : Dom.t) (el : Dom.Node) (c : string) : Prop :=
  c ∈ Dom.classesOf el d.

(** ** The host: construction, input binding, content children, events *)

Definition new_NgbDropdown (config : NgbDropdownConfig)
    (hostEl bodyEl : Dom.Node) (d : Dom.t) : State :=
  {| self := {| _outsideClickListener := None; _bodyContainer := None;
                _menu := None; _menuElement := None; _anchor := None;
                autoClose := config_autoClose config; _open := false;
                placement := config_placement config;
                container := config_container config;
                nativeElement := hostEl; body := bodyEl |};
     dom := d; _zoneSubscription := true; openChange := []; positionCalls := [] |}.

(** The inputs Angular may rebind during the life of the directive; [None]
    leaves an input as it is.  The [open] input is bound to the field
    [_open] itself. *)
Record Inputs := {
  in_open : option bool;
  in_autoClose : option AutoClose;
  in_placement : option PlacementArray;
  in_container : option Container
}.

Definition setInputs (i : Inputs) (d : NgbDropdown) : NgbDropdown :=
  let d := match in_open i with Some v => set_open v d | None => d end in
  let d := match in_autoClose i with Some v => set_autoClose v d | None => d end in
  let d := match in_placement i with Some v => set_placement v d | None => d end in
  match in_container i with Some v => set_container v d | None => d end.

Definition note_change {A} (name : string) (v : option A) (first : bool)
    (changes : SimpleChanges) : SimpleChanges :=
  match v with
  | Some _ => <[name := {| firstChange := first |}]> changes
  | None => changes
  end.

Definition changesOf (first : bool) (i : Inputs) : SimpleChanges :=
  note_change "_open" (in_open i) first
    (note_change "autoClose" (in_autoClose i) first
       (note_change "placement" (in_placement i) first
          (note_change "container" (in_container i) first ∅))).

(** The two [@ContentChild(NgbDropdownMenu)] queries resolve to the same
    directive, once as the directive and once as its element. *)
Record Content := {
  content_menu : option NgbDropdownMenu;
  content_anchor : option NgbDropdownAnchor
}.

Definition setContent (c : Content) (d : NgbDropdown) : NgbDropdown :=
  set_anchor (content_anchor c)
    (set_menuElement (menu_nativeElement <$> content_menu c)
       (set_menu (content_menu c) d)).

(** What can happen to a mounted directive. *)
Inductive Event :=
| CallOpen
| CallClose
| CallToggle
| CallCloseFromClick (e : MouseEvent)
| DocumentClick (e : MouseEvent)
| KeyupEsc
| ZoneStable
| InputsChanged (i : Inputs)
| ContentChanged (c : Content)
| Destroy.

Section Host.

Variable positionElements :
  Dom.t -> Dom.Node -> Dom.Node -> PlacementArray -> bool -> Placement.

(** Angular assigns the rebound inputs, then calls [ngOnChanges]. *)
Definition inputsChanged (first : bool) (i : Inputs) : Method unit :=
  assign (setInputs i) ;;
  ngOnChanges (changesOf first i).

(** A click reaching [document] runs the callback of every listener that was
    registered when the dispatch began and has not been removed since; each
    callback is [(e) => this.closeFromClick(e)], and an error raised by one
    listener does not stop the dispatch. *)
Fixpoint dispatchClick (ls : list nat) (e : MouseEvent) : Method unit :=
  match ls with
  | [] => Js.ret tt
  | l :: ls' =>
      fun s =>
        dispatchClick ls' e
          (if decide (l ∈ Dom.clickListeners (dom s))
           then Js.after (closeFromClick e s) else s)
  end.

Definition documentClick (e : MouseEvent) : Method unit :=
  fun s => dispatchClick (Dom.clickListeners (dom s)) e s.

Definition handle (ev : Event) : Method unit :=
  match ev with
  | CallOpen => open positionElements
  | CallClose => close
  | CallToggle => toggle positionElements
  | CallCloseFromClick e => closeFromClick e
  | DocumentClick e => documentClick e
  | KeyupEsc => closeFromOutsideEsc
  | ZoneStable => onStable positionElements
  | InputsChanged i => inputsChanged false i
  | ContentChanged c => assign (setContent c)
  | Destroy => ngOnDestroy
  end.

(** Construction, the first binding of the inputs (with the [open] input),
    the content children known so far, then [ngOnInit]. *)
Definition mount (config : NgbDropdownConfig) (hostEl bodyEl : Dom.Node) (d : Dom.t)
    (open0 : bool) (i : Inputs) (c : Content) : State :=
  let s := new_NgbDropdown config hostEl bodyEl d in
  let s := with_self (set_open open0) s in
  let s := with_self (setContent c) s in
  let s := Js.after (inputsChanged true i s) in
  Js.after (ngOnInit s).

Fixpoint run (evs : list Event) (s : State) : State :=
  match evs with
  | [] => s
  | ev :: evs' => run evs' (Js.after (handle ev s))
  end.

(** The states a directive goes through: mounted on a page where it has no
    listener yet, then driven by events.  A call that raised leaves the
    directive in the state it had reached. *)
Inductive reachable : State -> Prop :=
| reachable_mount config hostEl bodyEl d open0 i c :
    Dom.clickListeners d = [] ->
    reachable (mount config hostEl bodyEl d open0 i c)
| reachable_step s ev :
    reachable s -> reachable (Js.after (handle ev s)).

(** An event that leaves the [open] input as it was bound at mount. *)
Definition keeps_open_input (ev : Event) : Prop :=
  match ev with
  | InputsChanged i => in_open i = None
  | _ => True
  end.

(** The states reached when the [open] input only gives the initial state,
    as its documentation has it, and is not rebound afterwards. *)
Inductive reachable_open_initial : State -> Prop :=
| open_initial_mount config hostEl bodyEl d open0 i c :
    Dom.clickListeners d = [] ->
    reachable_open_initial (mount config hostEl bodyEl d open0 i c)
| open_initial_step s ev :
    reachable_open_initial s -> keeps_open_input ev ->
    reachable_open_initial (Js.after (handle ev s)).

End Host.

(** ** A concrete page *)

Module Example.

Definition hostEl : Dom.Node := 1.
Definition bodyEl : Dom.Node := 0.
Definition toggleEl : Dom.Node := 2.
Definition menuEl : Dom.Node := 3.
Definition itemEl : Dom.Node := 4.
Definition elsewhereEl : Dom.Node := 5.

(** [body > host > (toggle, menu > item)], and [elsewhere] under [body]. *)
Definition page : Dom.t :=
  Dom.mk ∅ ∅
    (<[hostEl := bodyEl]> (<[toggleEl := hostEl]> (<[menuEl := hostEl]>
       (<[itemEl := menuEl]> (<[elsewhereEl := bodyEl]> ∅)))))
    6 [] 0.

Definition config : NgbDropdownConfig :=
  {| config_autoClose := AcTrue; config_placement := PSingle "bottom-left";
     config_container := CNull |}.

Definition menu : NgbDropdownMenu :=
  {| menu_placement := Some "bottom"; menu_isOpen := false; menu_nativeElement := menuEl |}.

Definition anchor : NgbDropdownAnchor := {| anchorEl := toggleEl |}.

Definition content : Content :=
  {| content_menu := Some menu; content_anchor := Some anchor |}.

(** A resolver that always answers with the first candidate. *)
Definition firstCandidate (_ : Dom.t) (_ _ : Dom.Node) (pl : PlacementArray) (_ : bool)
    : Placement :=
  default "bottom" (configured_placement pl).

Definition mounted (ac : AutoClose) (c : Content) : State :=
  mount config hostEl bodyEl page false
    {| in_open := None; in_autoClose := Some ac; in_placement := None; in_container := None |} c.

Definition opened (ac : AutoClose) (c : Content) : State :=
  Js.after (handle firstCandidate CallOpen (mounted ac c)).

(** The same dropdown with [container = 'body'], opened. *)
Definition detached : State :=
  Js.after (handle firstCandidate CallOpen
    (mount config hostEl bodyEl page false
       {| in_open := None; in_autoClose := None; in_placement := None; in_container := Some CBody |}
       content)).

(** A dropdown whose template has a menu but neither anchor nor toggle. *)
Definition anchorless : Content :=
  {| content_menu := Some menu; content_anchor := None |}.

(** A dropdown whose template has no menu. *)
Definition menuless : Content :=
  {| content_menu := None; content_anchor := Some anchor |}.

Definition click (b : Z) (t : Dom.Node) : MouseEvent := {| button := b; target := t |}.

Definition placementTop : Inputs :=
  {| in_open := None; in_autoClose := None; in_placement := Some (PSingle "top-left");
     in_container := None |}.

(** A closed dropdown with [container = 'body'] whose template has no menu. *)
Definition bodyMenuless : State :=
  mount config hostEl bodyEl page false
    {| in_open := None; in_autoClose := None; in_placement := None; in_container := Some CBody |}
    menuless.

(** A dropdown bound to an empty list of candidate placements. *)
Definition noCandidate : State :=
  mount config hostEl bodyEl page false
    {| in_open := None; in_autoClose := None; in_placement := Some (PArray []); in_container := None |}
    content.

(** The open dropdown just after Angular has rebound [container] to
    ['body'], and the changes [ngOnChanges] is then called with. *)
Definition reboundToBody : State :=
  with_self (set_container CBody) (opened AcTrue content).


(** Angular rebinding the [open] input to [true]. *)
Definition openTrue : Inputs :=
  {| in_open := Some true; in_autoClose := None; in_placement := None;
     in_container := None |}.


Definition containerChange : SimpleChanges :=
  {["container" := {| firstChange := false |}]}.

End Example.

(** ** Predicates on states *)

(** A body container is held only while open, and the only listener that
    can be live is the one whose remove function the directive holds, which
    happens only while open. *)
Definition Inv (s : State) : Prop :=
  (_bodyContainer (self s) <> None -> _open (self s) = true) /\
  (Dom.clickListeners (dom s) = [] \/
   exists l, Dom.clickListeners (dom s) = [l] /\
             _outsideClickListener (self s) = Some l /\
             _open (self s) = true).


(** The directive has what its methods dereference: an anchor; the menu
    element whenever the menu is to be moved or positioned; a first
    candidate placement whenever there is a menu; and, while open, the
    remove function of its listener. *)
Definition wired (s : State) : Prop :=
  _anchor (self s) <> None /\
  (container (self s) = CBody \/ _menu (self s) <> None ->
   _menuElement (self s) <> None) /\
  (_menu (self s) <> None -> configured_placement (placement (self s)) <> None) /\
  (_open (self s) = true -> _outsideClickListener (self s) <> None).

(** A template with a toggle (or anchor) and a menu, and a placement that
    has a first candidate. *)
Definition equipped (s : State) : Prop :=
  _anchor (self s) <> None /\
  _menu (self s) <> None /\
  _menuElement (self s) <> None /\
  configured_placement (placement (self s)) <> None.

Definition holds_listener (s : State) : Prop :=
  _open (self s) = true -> _outsideClickListener (self s) <> None.

Definition well_formed_content (c : Content) : Prop :=
  content_menu c <> None /\ content_anchor c <> None.

Definition well_formed_inputs (i : Inputs) : Prop :=
  forall pl, in_placement i = Some pl -> configured_placement pl <> None.

(** Events that keep the template and the placement well formed and leave
    the [open] input alone. *)
Definition well_formed_event (ev : Event) : Prop :=
  match ev with
  | InputsChanged i => well_formed_inputs i /\ in_open i = None
  | ContentChanged c => well_formed_content c
  | _ => True
  end.

(** The body container the directive holds, if any, is where the directive
    puts it: a child of [document.body], and not the menu element. *)
Definition container_under_body (s : State) : Prop :=
  forall b, _bodyContainer (self s) = Some b ->
    Dom.parentNode (dom s) !! b = Some (body (self s)) /\
    _menuElement (self s) <> Some b.

(** * Verification *)

(** ** Running the methods symbolically *)

Ltac js_unfold :=
  unfold toggle, open, close, closeFromOutsideEsc, closeFromClick, ngOnDestroy,
    onStable, ngOnInit, ngOnChanges, _positionMenu, _applyPlacementClasses,
    call_positionElements, _applyContainer, _resetContainer, _registerListener,
    call_outsideClickListener, _isEventFromToggle, _isEventFromMenu, emit,
    closing_on_throw,
    unsubscribe, renderer_listen, renderer_createElement, renderer, assign, this,
    Js.bind, Js.ret, Js.throw, Js.gets, Js.modify, Js.after, Js.returns,
    isOpen, containerMode, outsideSubscriptions, with_self, with_dom,
    set_outsideClickListener, set_bodyContainer, set_menu, set_open, set_placement,
    set_menu_placement, truthy_ref, truthy_placement, truthy_autoClose,
    truthy_function, configured_placement, stored_placement,
    Dom.listen, Dom.createElement in *.

Ltac js_state s :=
  destruct s as [[lsn bc mn me an ac op pl ct hostEl bodyEl] d zs oc pcs].

Ltac js_case :=
  match goal with
  | |- context [match ?x with _ => _ end] => is_var x; destruct x
  | |- context [if ?x then _ else _] => is_var x; destruct x
  | |- context [negb ?x] => is_var x; destruct x
  | |- context [head ?x] => is_var x; destruct x
  | |- context [andb ?x _] => is_var x; destruct x
  | |- context [String.eqb ?a ?b] => destruct (String.eqb a b) eqn:?
  end.

Ltac js_run := js_unfold; simpl; repeat (js_case; simpl).

(** The class operations of the renderer leave the listeners of the
    document alone. *)
Lemma clickListeners_addClass el n d :
  Dom.clickListeners (Dom.addClass el n d) = Dom.clickListeners d.
Proof. reflexivity. Qed.

Lemma nextListener_addClass el n d :
  Dom.nextListener (Dom.addClass el n d) = Dom.nextListener d.
Proof. reflexivity. Qed.

Lemma clickListeners_removeClass el n d :
  Dom.clickListeners (Dom.removeClass el n d) = Dom.clickListeners d.
Proof. reflexivity. Qed.

Lemma nextListener_removeClass el n d :
  Dom.nextListener (Dom.removeClass el n d) = Dom.nextListener d.
Proof. reflexivity. Qed.

Ltac js_keep_dom tac :=
  tac; rewrite ?clickListeners_addClass, ?nextListener_addClass,
         ?clickListeners_removeClass, ?nextListener_removeClass.

Ltac js_cbn :=
  js_keep_dom ltac:(cbn -[Dom.addClass Dom.removeClass Dom.classesOf]).

Ltac js_run_classes := js_unfold; js_cbn; repeat (js_case; js_cbn).

Section Claims.

Variable positionElements :
  Dom.t -> Dom.Node -> Dom.Node -> PlacementArray -> bool -> Placement.

(** *** The open flag across the methods *)

Lemma open_isOpen s : isOpen (Js.after (open positionElements s)) = true.
Proof. js_state s. js_run; reflexivity. Qed.

Lemma open_noop s :
  isOpen s = true -> open positionElements s = (Js.Normal tt, s).
Proof. js_state s. js_unfold. simpl. intros ->. reflexivity. Qed.

Lemma close_isOpen s : isOpen (Js.after (close s)) = false.
Proof. js_state s. js_run; reflexivity. Qed.

Lemma close_noop s : isOpen s = false -> close s = (Js.Normal tt, s).
Proof. js_state s. js_unfold. simpl. intros ->. reflexivity. Qed.

Lemma close_containerMode s :
  isOpen s = true -> containerMode (Js.after (close s)) = Inline.
Proof. js_state s. js_unfold. simpl. intros ->. js_run; reflexivity. Qed.

Lemma positionMenu_isOpen s :
  isOpen (Js.after (_positionMenu positionElements s)) = isOpen s.
Proof. js_state s. js_run; reflexivity. Qed.

Lemma positionMenu_idle s :
  isOpen s = false \/ _menu (self s) = None ->
  _positionMenu positionElements s = (Js.Normal tt, s).
Proof.
  js_state s. js_unfold. simpl. intros [-> | ->]; [reflexivity|].
  destruct op; reflexivity.
Qed.

Lemma onStable_idle s :
  isOpen s = false \/ _menu (self s) = None ->
  onStable positionElements s = (Js.Normal tt, s).
Proof.
  intros H. unfold onStable, Js.bind, Js.gets, Js.ret.
  destruct (_zoneSubscription s); [|reflexivity].
  unfold closing_on_throw. now rewrite positionMenu_idle.
Qed.

Lemma closing_on_throw_isOpen (m : Method unit) s :
  isOpen (Js.after (closing_on_throw m s)) = isOpen (Js.after (m s)).
Proof. unfold closing_on_throw. destruct (m s) as [[a|e] s']; reflexivity. Qed.

(** ** Idempotence of [open] *)

(** C5: calling [open()] a second time changes nothing: the call returns
    and leaves the whole state as the first call left it, so the open flag,
    the number of live outside-click listeners and the container mode are
    those of a single call, nothing more is emitted on [openChange], and no
    listener is added. *)
Theorem open_twice_is_open_once s :
  let s1 := Js.after (open positionElements s) in
  let s2 := Js.after (open positionElements s1) in
  open positionElements s1 = (Js.Normal tt, s1) /\
  isOpen s2 = isOpen s1 /\
  outsideSubscriptions s2 = outsideSubscriptions s1 /\
  containerMode s2 = containerMode s1 /\
  _bodyContainer (self s2) = _bodyContainer (self s1) /\
  openChange s2 = openChange s1 /\
  Dom.clickListeners (dom s2) = Dom.clickListeners (dom s1).
Proof.
  intros s1 s2.
  assert (E : open positionElements s1 = (Js.Normal tt, s1))
    by apply open_noop, open_isOpen.
  subst s2. rewrite E. simpl. repeat split; reflexivity.
Qed.

(** ** Dismissal with [autoClose = false] *)

Lemma dispatchClick_autoClose_false ls e s :
  autoClose (self s) = AcFalse ->
  closeFromClick e s = (Js.Normal tt, s) ->
  dispatchClick ls e s = (Js.Normal tt, s).
Proof.
  intros Hac Hc. induction ls as [|l ls IH]; simpl; [reflexivity|].
  rewrite Hc. simpl. destruct (decide _); exact IH.
Qed.

(** C7: with [autoClose === false] neither a click (any button, any target,
    called directly or delivered through the document listener) nor the
    escape key closes the dropdown: both dismissal paths return and leave
    the state, hence [isOpen], as it was. *)
Theorem autoClose_false_never_dismisses s e :
  autoClose (self s) = AcFalse ->
  closeFromClick e s = (Js.Normal tt, s) /\
  documentClick e s = (Js.Normal tt, s) /\
  closeFromOutsideEsc s = (Js.Normal tt, s) /\
  isOpen (Js.after (closeFromClick e s)) = isOpen s /\
  isOpen (Js.after (closeFromOutsideEsc s)) = isOpen s.
Proof.
  intros Hac.
  assert (Hc : closeFromClick e s = (Js.Normal tt, s)).
  { js_state s. simpl in Hac. subst ac. reflexivity. }
  assert (He : closeFromOutsideEsc s = (Js.Normal tt, s)).
  { js_state s. simpl in Hac. subst ac. reflexivity. }
  split; [exact Hc|]. split.
  - unfold documentClick. now apply dispatchClick_autoClose_false.
  - rewrite Hc, He. repeat split; reflexivity.
Qed.

(** ** The escape key *)

(** C8: for every truthy [autoClose] ([true], ['inside'] or ['outside']) the
    escape path is [close()] itself, whatever element the key press came
    from; on an open dropdown it leaves [isOpen() === false] and the menu
    inline. *)
Theorem escape_closes_when_autoClose_truthy s :
  truthy_autoClose (autoClose (self s)) = true ->
  isOpen s = true ->
  closeFromOutsideEsc s = close s /\
  isOpen (Js.after (closeFromOutsideEsc s)) = false /\
  containerMode (Js.after (closeFromOutsideEsc s)) = Inline.
Proof.
  intros Hac Ho.
  assert (E : closeFromOutsideEsc s = close s).
  { unfold closeFromOutsideEsc, Js.bind, this, Js.gets. now rewrite Hac. }
  rewrite E. split; [reflexivity|]. split.
  - apply close_isOpen.
  - now apply close_containerMode.
Qed.

(** ** Re-placement on a stable layout *)

(** C9: [_positionMenu], and the [onStable] callback that calls it, never
    change [isOpen]; when the dropdown is closed or no menu is registered
    they return without calling [positionElements] and without touching the
    directive or the page (the state is unchanged); in particular this is so
    for a notification delivered after [close()]. *)
Theorem positionMenu_only_acts_while_open s :
  isOpen (Js.after (_positionMenu positionElements s)) = isOpen s /\
  isOpen (Js.after (onStable positionElements s)) = isOpen s /\
  (isOpen s = false \/ _menu (self s) = None ->
   _positionMenu positionElements s = (Js.Normal tt, s) /\
   onStable positionElements s = (Js.Normal tt, s)) /\
  (let s' := Js.after (close s) in
   _positionMenu positionElements s' = (Js.Normal tt, s') /\
   onStable positionElements s' = (Js.Normal tt, s') /\
   positionCalls (Js.after (onStable positionElements s')) = positionCalls s').
Proof.
  split; [apply positionMenu_isOpen|]. split.
  { unfold onStable, Js.bind, Js.gets, Js.ret.
    destruct (_zoneSubscription s); [|reflexivity].
    rewrite closing_on_throw_isOpen. apply positionMenu_isOpen. }
  split.
  { intros H. split; [now apply positionMenu_idle | now apply onStable_idle]. }
  intros s'.
  assert (Hc : isOpen s' = false) by apply close_isOpen.
  rewrite onStable_idle by now left.
  rewrite positionMenu_idle by now left.
  repeat split; reflexivity.
Qed.

(** ** Dismissal by click *)

Lemma closeFromClick_secondary s e :
  button e = 2%Z -> closeFromClick e s = (Js.Normal tt, s).
Proof.
  intros Hb. js_state s. js_unfold. simpl. rewrite Hb. simpl.
  rewrite andb_false_r. reflexivity.
Qed.

Lemma closeFromClick_from_toggle s e a :
  _anchor (self s) = Some a ->
  NgbDropdownAnchor_isEventFrom a e (dom s) = true ->
  closeFromClick e s = (Js.Normal tt, s).
Proof.
  js_state s. simpl. intros -> Hc. js_unfold. simpl.
  destruct ac; simpl; try reflexivity;
    destruct (button e =? 2)%Z; simpl; try reflexivity;
    rewrite Hc; reflexivity.
Qed.

Lemma button_neq_2 e : button e <> 2%Z -> (button e =? 2)%Z = false.
Proof. intros H. now apply Z.eqb_neq. Qed.

(** C3 (as the code has it): with [autoClose === true], an open dropdown and
    a registered anchor, the click path is [close()] for every click whose
    button is not 2 and whose target is not inside the anchor; a click with
    button 2 is never dismissed, wherever it lands, nor is any click inside
    the anchor. *)
Theorem autoClose_true_click_dismissal s e :
  autoClose (self s) = AcTrue ->
  isOpen s = true ->
  (forall a, _anchor (self s) = Some a ->
     button e <> 2%Z ->
     NgbDropdownAnchor_isEventFrom a e (dom s) = false ->
     closeFromClick e s = close s /\
     isOpen (Js.after (closeFromClick e s)) = false) /\
  (button e = 2%Z -> closeFromClick e s = (Js.Normal tt, s)) /\
  (forall a, _anchor (self s) = Some a ->
     NgbDropdownAnchor_isEventFrom a e (dom s) = true ->
     closeFromClick e s = (Js.Normal tt, s)).
Proof.
  intros Hac Ho. split; [|split].
  - intros a Ha Hb Hc.
    assert (E : closeFromClick e s = close s).
    { apply button_neq_2 in Hb. js_state s. simpl in *. subst.
      unfold closeFromClick, _isEventFromToggle, Js.bind, this, Js.gets, Js.ret.
      simpl. rewrite Hb. simpl. rewrite Hc. reflexivity. }
    rewrite E. split; [reflexivity | apply close_isOpen].
  - apply closeFromClick_secondary.
  - intros a. apply closeFromClick_from_toggle.
Qed.

(** C6: with [autoClose === 'inside'] and the dropdown open, a primary-button
    click inside the menu (and not inside the anchor) is [close()] and leaves
    the dropdown closed; a click outside both the anchor and the menu returns
    without changing anything; and with no menu registered
    [_isEventFromMenu] answers [false], so no click changes the state. *)
Theorem autoClose_inside_click_dismissal s e :
  autoClose (self s) = AcInside ->
  isOpen s = true ->
  (forall a m, _anchor (self s) = Some a -> _menu (self s) = Some m ->
     button e = 0%Z ->
     NgbDropdownAnchor_isEventFrom a e (dom s) = false ->
     NgbDropdownMenu_isEventFrom m e (dom s) = true ->
     closeFromClick e s = close s /\
     isOpen (Js.after (closeFromClick e s)) = false) /\
  (forall a m, _anchor (self s) = Some a -> _menu (self s) = Some m ->
     NgbDropdownAnchor_isEventFrom a e (dom s) = false ->
     NgbDropdownMenu_isEventFrom m e (dom s) = false ->
     closeFromClick e s = (Js.Normal tt, s)) /\
  (_menu (self s) = None ->
     _isEventFromMenu e s = (Js.Normal false, s) /\
     Js.after (closeFromClick e s) = s /\
     isOpen (Js.after (closeFromClick e s)) = true).
Proof.
  intros Hac Ho. split; [|split].
  - intros a m Ha Hm Hb Hca Hcm.
    assert (E : closeFromClick e s = close s).
    { js_state s. simpl in *. subst.
      unfold closeFromClick, _isEventFromToggle, _isEventFromMenu,
        Js.bind, this, Js.gets, Js.ret.
      simpl. rewrite Hb. simpl. rewrite Hca. simpl. rewrite Hcm. reflexivity. }
    rewrite E. split; [reflexivity | apply close_isOpen].
  - intros a m Ha Hm Hca Hcm.
    js_state s. simpl in *. subst.
    unfold closeFromClick, _isEventFromToggle, _isEventFromMenu,
      Js.bind, this, Js.gets, Js.ret.
    simpl. destruct (negb _); simpl; [|reflexivity].
    rewrite Hca. simpl. rewrite Hcm. reflexivity.
  - intros Hm.
    assert (E : Js.after (closeFromClick e s) = s).
    { js_state s. simpl in *. subst.
      unfold closeFromClick, _isEventFromToggle, _isEventFromMenu,
        Js.bind, this, Js.gets, Js.ret, Js.throw, Js.after.
      simpl. destruct (negb _); simpl; [|reflexivity].
      destruct an; simpl; [|reflexivity].
      destruct (NgbDropdownAnchor_isEventFrom _ _ _); reflexivity. }
    split; [|split].
    + js_state s. simpl in *. subst. reflexivity.
    + exact E.
    + rewrite E. exact Ho.
Qed.

(** ** The container and the listener across the life of the directive *)

Ltac inv_break :=
  repeat match goal with
  | H : _ /\ _ |- _ => destruct H
  | H : _ \/ _ |- _ => destruct H
  | H : ex _ |- _ => destruct H
  | H : Some _ = Some _ |- _ => injection H as H; subst
  end.

Ltac inv_solve :=
  unfold Inv in *; simpl in *; inv_break; subst; simpl in *;
  try discriminate;
  repeat match goal with
  | H : Dom.clickListeners _ = _ |- _ => rewrite H in *; clear H
  end; simpl in *;
  rewrite ?filter_cons, ?filter_nil;
  repeat (case_decide; try congruence); simpl in *;
  try (split; [congruence | first [left; reflexivity | right; eauto]]).

Lemma Inv_open s : Inv s -> Inv (Js.after (open positionElements s)).
Proof.
  js_state s. intros H. js_run; try exact H; inv_solve.
Qed.

Lemma Inv_close s : Inv s -> Inv (Js.after (close s)).
Proof.
  js_state s. intros H. js_run; try exact H; inv_solve.
Qed.

Lemma Inv_toggle s : Inv s -> Inv (Js.after (toggle positionElements s)).
Proof.
  intros H. unfold toggle, Js.bind, Js.gets.
  destruct (isOpen s); [now apply Inv_close | now apply Inv_open].
Qed.

Lemma closeFromClick_cases e s :
  Js.after (closeFromClick e s) = s \/
  Js.after (closeFromClick e s) = Js.after (close s).
Proof.
  js_state s.
  unfold closeFromClick, _isEventFromToggle, _isEventFromMenu,
    Js.bind, this, Js.gets, Js.ret, Js.throw, Js.after.
  simpl.
  destruct (truthy_autoClose ac && negb (button e =? 2)%Z); simpl; [|now left].
  destruct an; simpl; [|now left].
  destruct (NgbDropdownAnchor_isEventFrom _ _ _); simpl; [now left|].
  destruct ac; simpl; try (now left); try (now right);
    destruct mn; simpl; try (now left); try (now right);
    destruct (NgbDropdownMenu_isEventFrom _ _ _); simpl; try (now left); now right.
Qed.

Lemma Inv_closeFromClick e s : Inv s -> Inv (Js.after (closeFromClick e s)).
Proof.
  intros H. destruct (closeFromClick_cases e s) as [-> | ->];
    [exact H | now apply Inv_close].
Qed.

Lemma Inv_dispatchClick ls e s : Inv s -> Inv (Js.after (dispatchClick ls e s)).
Proof.
  revert s. induction ls as [|l ls IH]; intros s H; simpl; [exact H|].
  apply IH. destruct (decide _); [now apply Inv_closeFromClick | exact H].
Qed.

Lemma Inv_closeFromOutsideEsc s : Inv s -> Inv (Js.after (closeFromOutsideEsc s)).
Proof.
  intros H. unfold closeFromOutsideEsc, Js.bind, this, Js.gets, Js.ret.
  destruct (truthy_autoClose _); [now apply Inv_close | exact H].
Qed.

Lemma Inv_onStable s : Inv s -> Inv (Js.after (onStable positionElements s)).
Proof.
  js_state s. intros H. js_run; try exact H; inv_solve.
Qed.

Lemma Inv_ngOnDestroy s : Inv s -> Inv (Js.after (ngOnDestroy s)).
Proof.
  js_state s. intros H. js_run; try exact H; inv_solve.
Qed.

Lemma Inv_ngOnChanges changes s : Inv s -> Inv (Js.after (ngOnChanges changes s)).
Proof.
  unfold ngOnChanges.
  generalize (changes !! "container") (changes !! "placement").
  intros c1 c2. js_state s. intros H. js_run; try exact H; inv_solve.
Qed.

Lemma Inv_setInputs i s :
  in_open i = None -> Inv s -> Inv (with_self (setInputs i) s).
Proof.
  js_state s. destruct i as [o [?|] [?|] [?|]]; simpl; intros -> H; exact H.
Qed.

Lemma Inv_setContent c s : Inv s -> Inv (with_self (setContent c) s).
Proof. js_state s. intros H. exact H. Qed.

Lemma Inv_inputsChanged first i s :
  in_open i = None -> Inv s -> Inv (Js.after (inputsChanged first i s)).
Proof.
  intros Hi H. unfold inputsChanged, Js.bind, assign, Js.modify.
  now apply Inv_ngOnChanges, Inv_setInputs.
Qed.

Lemma Inv_documentClick e s : Inv s -> Inv (Js.after (documentClick e s)).
Proof. apply Inv_dispatchClick. Qed.

Lemma Inv_contentChanged c s : Inv s -> Inv (Js.after (assign (setContent c) s)).
Proof. apply Inv_setContent. Qed.

Create HintDb inv discriminated.

#[local] Hint Resolve Inv_open Inv_close Inv_toggle Inv_closeFromClick
  Inv_documentClick Inv_closeFromOutsideEsc Inv_onStable Inv_inputsChanged
  Inv_contentChanged Inv_ngOnDestroy : inv.








Lemma reachable_open_initial_reachable s :
  reachable_open_initial positionElements s -> reachable positionElements s.
Proof.
  induction 1 as [config hostEl bodyEl d open0 i c Hd | s ev _ IH _].
  - now apply reachable_mount.
  - now apply reachable_step.
Qed.

(** ** [toggle] *)

Lemma toggle_isOpen s :
  isOpen (Js.after (toggle positionElements s)) = negb (isOpen s).
Proof.
  unfold toggle, Js.bind, Js.gets. destruct (isOpen s) eqn:E; simpl.
  - apply close_isOpen.
  - apply open_isOpen.
Qed.

Ltac wired_break :=
  unfold wired in *; simpl in *;
  repeat match goal with
  | H : _ /\ _ |- _ => destruct H
  | H : ?x <> ?x |- _ => destruct (H eq_refl)
  | H : ?P -> _ |- _ =>
      let HP := fresh in
      assert (HP : P)
        by first [reflexivity | discriminate | left; reflexivity | right; discriminate];
      specialize (H HP); clear HP
  end.

Lemma toggle_wired s :
  wired s ->
  Js.returns (toggle positionElements s) = true /\
  openChange (Js.after (toggle positionElements s)) =
    openChange s ++ [negb (isOpen s)] /\
  wired (Js.after (toggle positionElements s)).
Proof.
  js_state s. intros H. js_run; wired_break; try discriminate;
    (split; [reflexivity | split; [reflexivity|]]);
    repeat split; simpl; try congruence; intros;
    solve [intuition (auto; congruence)].
Qed.

(** *** A well-formed dropdown stays wired *)

Ltac equipped_solve :=
  unfold equipped, holds_listener in *; simpl in *;
  repeat match goal with
  | H : _ /\ _ |- _ => destruct H
  | H : ?x <> ?x |- _ => destruct (H eq_refl)
  end;
  try discriminate;
  repeat split; simpl; try congruence; intros;
  solve [intuition (auto; congruence)].

Lemma equipped_wired s : equipped s -> holds_listener s -> wired s.
Proof.
  unfold equipped, holds_listener, wired. intros (Ha & Hm & He & Hp) Hl.
  repeat split; auto.
Qed.

Lemma equipped_open s :
  equipped s /\ holds_listener s ->
  equipped (Js.after (open positionElements s)) /\
  holds_listener (Js.after (open positionElements s)).
Proof. js_state s. intros [H1 H2]. js_run; equipped_solve. Qed.

Lemma equipped_close s :
  equipped s /\ holds_listener s ->
  equipped (Js.after (close s)) /\ holds_listener (Js.after (close s)).
Proof. js_state s. intros [H1 H2]. js_run; equipped_solve. Qed.

Lemma equipped_onStable s :
  equipped s /\ holds_listener s ->
  equipped (Js.after (onStable positionElements s)) /\
  holds_listener (Js.after (onStable positionElements s)).
Proof. js_state s. intros [H1 H2]. js_run; equipped_solve. Qed.

Lemma equipped_ngOnDestroy s :
  equipped s /\ holds_listener s ->
  equipped (Js.after (ngOnDestroy s)) /\ holds_listener (Js.after (ngOnDestroy s)).
Proof. js_state s. intros [H1 H2]. js_run; equipped_solve. Qed.

Lemma equipped_ngOnChanges changes s :
  equipped s /\ holds_listener s ->
  equipped (Js.after (ngOnChanges changes s)) /\
  holds_listener (Js.after (ngOnChanges changes s)).
Proof.
  unfold ngOnChanges.
  generalize (changes !! "container") (changes !! "placement").
  intros c1 c2. js_state s. intros [H1 H2]. js_run; equipped_solve.
Qed.

Lemma equipped_setInputs i s :
  well_formed_inputs i ->
  in_open i = None ->
  equipped s /\ holds_listener s ->
  equipped (with_self (setInputs i) s) /\ holds_listener (with_self (setInputs i) s).
Proof.
  unfold well_formed_inputs. js_state s.
  destruct i as [o [?|] [p|] [?|]]; simpl; intros Hi -> [H1 H2];
    try specialize (Hi p eq_refl); equipped_solve.
Qed.

Lemma equipped_setContent c s :
  well_formed_content c ->
  equipped s /\ holds_listener s ->
  equipped (with_self (setContent c) s) /\ holds_listener (with_self (setContent c) s).
Proof.
  unfold well_formed_content. js_state s. destruct c as [[m|] [a|]];
    simpl; intros [Hm Ha] [H1 H2]; equipped_solve.
Qed.

Lemma equipped_handle ev s :
  well_formed_event ev ->
  equipped s /\ holds_listener s ->
  equipped (Js.after (handle positionElements ev s)) /\
  holds_listener (Js.after (handle positionElements ev s)).
Proof.
  intros Hev H. destruct ev; simpl in *.
  - now apply equipped_open.
  - now apply equipped_close.
  - unfold toggle, Js.bind, Js.gets.
    destruct (isOpen s); [now apply equipped_close | now apply equipped_open].
  - destruct (closeFromClick_cases e s) as [-> | ->];
      [exact H | now apply equipped_close].
  - unfold documentClick. generalize (Dom.clickListeners (dom s)). intros ls.
    revert s H. induction ls as [|l ls IH]; intros s H; simpl; [exact H|].
    apply IH. destruct (decide _); [|exact H].
    destruct (closeFromClick_cases e s) as [-> | ->];
      [exact H | now apply equipped_close].
  - unfold closeFromOutsideEsc, Js.bind, this, Js.gets, Js.ret.
    destruct (truthy_autoClose _); [now apply equipped_close | exact H].
  - now apply equipped_onStable.
  - destruct Hev as [Hi Ho]. unfold inputsChanged, Js.bind, assign, Js.modify.
    now apply equipped_ngOnChanges, equipped_setInputs.
  - now apply equipped_setContent.
  - now apply equipped_ngOnDestroy.
Qed.

Lemma equipped_ngOnInit s :
  equipped s ->
  _outsideClickListener (self s) = None ->
  equipped (Js.after (ngOnInit s)) /\ holds_listener (Js.after (ngOnInit s)).
Proof. js_state s. simpl. intros H1 ->. js_run_classes; equipped_solve. Qed.

Lemma ngOnChanges_outsideClickListener changes s :
  _outsideClickListener (self (Js.after (ngOnChanges changes s))) =
  _outsideClickListener (self s).
Proof.
  unfold ngOnChanges.
  generalize (changes !! "container") (changes !! "placement").
  intros c1 c2. js_state s. js_run; reflexivity.
Qed.

Lemma equipped_before_ngOnInit changes i s :
  well_formed_inputs i ->
  equipped s ->
  equipped (Js.after (ngOnChanges changes (with_self (setInputs i) s))).
Proof.
  unfold ngOnChanges, well_formed_inputs.
  generalize (changes !! "container") (changes !! "placement").
  intros c1 c2. js_state s.
  destruct i as [[?|] [?|] [p|] [?|]]; simpl; intros Hi H1;
    try specialize (Hi p eq_refl); js_run; equipped_solve.
Qed.

Lemma equipped_mount config hostEl bodyEl d open0 i c :
  configured_placement (config_placement config) <> None ->
  well_formed_inputs i ->
  well_formed_content c ->
  equipped (mount config hostEl bodyEl d open0 i c) /\
  holds_listener (mount config hostEl bodyEl d open0 i c).
Proof.
  intros Hp Hi Hc. unfold mount. apply equipped_ngOnInit.
  - unfold inputsChanged, Js.bind, assign, Js.modify.
    apply equipped_before_ngOnInit; [exact Hi|].
    destruct Hc as [Hm Ha]. destruct c as [[m|] [a|]]; simpl in *; try congruence.
    unfold equipped. simpl. repeat split; congruence.
  - unfold inputsChanged, Js.bind, assign, Js.modify.
    rewrite ngOnChanges_outsideClickListener.
    destruct i as [[?|] [?|] [?|] [?|]]; reflexivity.
Qed.

(** A dropdown mounted with a toggle, a menu and a non-empty placement, and
    driven by events that keep them, is wired in every state it reaches. *)
Lemma well_formed_run_wired config hostEl bodyEl d open0 i c evs :
  configured_placement (config_placement config) <> None ->
  well_formed_inputs i ->
  well_formed_content c ->
  Forall well_formed_event evs ->
  wired (run positionElements evs (mount config hostEl bodyEl d open0 i c)).
Proof.
  intros Hp Hi Hc Hevs.
  pose proof (equipped_mount config hostEl bodyEl d open0 i c Hp Hi Hc) as H.
  revert H. generalize (mount config hostEl bodyEl d open0 i c).
  induction Hevs as [|ev evs Hev _ IH]; intros s H; simpl.
  - destruct H. now apply equipped_wired.
  - apply IH. now apply equipped_handle.
Qed.

Lemma toggle_openChange s :
  openChange (Js.after (toggle positionElements s)) =
  openChange s ++
    (if Js.returns (toggle positionElements s) then [negb (isOpen s)] else []).
Proof.
  js_state s. js_run; simpl; rewrite ?app_nil_r; reflexivity.
Qed.

(** C10 (as the code has it): every [toggle()] negates [isOpen()], so two
    in a row restore it.  A call that returns appends exactly one value to
    [openChange], the new [isOpen()], and a call that raises appends none;
    on a wired directive the call returns and leaves the directive wired, so
    both calls of a pair return and emit once each. *)
Theorem toggle_is_an_involution_on_isOpen s :
  let s1 := Js.after (toggle positionElements s) in
  let s2 := Js.after (toggle positionElements s1) in
  isOpen s1 = negb (isOpen s) /\
  isOpen s2 = isOpen s /\
  openChange s1 =
    openChange s ++
      (if Js.returns (toggle positionElements s) then [isOpen s1] else []) /\
  (wired s ->
   Js.returns (toggle positionElements s) = true /\
   openChange s1 = openChange s ++ [isOpen s1] /\
   Js.returns (toggle positionElements s1) = true /\
   openChange s2 = openChange s1 ++ [isOpen s2]).
Proof.
  intros s1 s2.
  assert (E1 : isOpen s1 = negb (isOpen s)) by apply toggle_isOpen.
  assert (E2 : isOpen s2 = negb (isOpen s1)) by apply toggle_isOpen.
  split; [exact E1|]. split.
  { rewrite E2, E1. apply negb_involutive. }
  split.
  { rewrite E1. apply toggle_openChange. }
  intros Hw.
  destruct (toggle_wired s Hw) as (R1 & O1 & W1).
  destruct (toggle_wired s1 W1) as (R2 & O2 & _).
  rewrite E1, E2. repeat split; assumption.
Qed.

End Claims.

(** ** The claims on the concrete page *)

Lemma ngOnDestroy_keeps_clickListeners s :
  Js.returns (ngOnDestroy s) = true /\
  Dom.clickListeners (dom (Js.after (ngOnDestroy s))) = Dom.clickListeners (dom s) /\
  isOpen (Js.after (ngOnDestroy s)) = isOpen s.
Proof. js_state s. js_run; repeat split; reflexivity. Qed.

(** C1: [ngOnDestroy] resets the container and unsubscribes from
    [onStable], but never calls [_outsideClickListener]: a dropdown that is
    mounted, opened and then destroyed still has its document click
    listener, whereas [close()] on the same dropdown removes it. *)
Theorem destroy_while_open_keeps_click_listener :
  let s := Example.opened AcTrue Example.content in
  let s' := Js.after (ngOnDestroy s) in
  isOpen s = true /\
  outsideSubscriptions s = 1 /\
  Js.returns (ngOnDestroy s) = true /\
  _zoneSubscription s' = false /\
  containerMode s' = Inline /\
  Dom.clickListeners (dom s') = [0] /\
  outsideSubscriptions s' = 1 /\
  outsideSubscriptions (Js.after (close s)) = 0.
Proof. vm_compute. repeat split; reflexivity. Qed.

Lemma ngOnChanges_without_container changes s :
  changes !! "container" = None ->
  ngOnChanges changes s = (Js.Normal tt, s).
Proof.
  intros Hc. unfold ngOnChanges, Js.bind, this, Js.gets, Js.ret. rewrite Hc. simpl.
  destruct (changes !! "placement"); reflexivity.
Qed.

(** C2: [ngOnChanges] tests [changes.placement.isFirstChange], the method
    itself and not its result, so the test never passes: rebinding
    [placement] from ["bottom-left"] to ["top-left"] on a mounted dropdown
    stores the new value and leaves the page, the classes of the host
    element and the placement of the menu as they were, whereas
    [_applyPlacementClasses()] called there would put ["dropup"] on the
    host. *)
Theorem placement_change_is_not_reapplied :
  let s := Example.mounted AcTrue Example.content in
  let r := handle Example.firstCandidate (InputsChanged Example.placementTop) s in
  let s' := Js.after r in
  Dom.classesOf Example.hostEl (dom s) = ["dropdown"] /\
  Js.returns r = true /\
  placement (self s') = PSingle "top-left" /\
  dom s' = dom s /\
  Dom.classesOf Example.hostEl (dom s') = ["dropdown"] /\
  (menu_placement <$> _menu (self s')) = Some (Some "bottom-left") /\
  Dom.classesOf Example.hostEl (dom (Js.after (_applyPlacementClasses None s')))
    = ["dropup"].
Proof. vm_compute. repeat split; reflexivity. Qed.

(** C3, refuted as stated: with [autoClose === true] on an open dropdown, a
    click with button 2 on an element outside the anchor (and outside the
    menu) is not from the toggle and yet leaves the dropdown open. *)
Lemma secondary_click_outside_stays_open :
  let s := Example.opened AcTrue Example.content in
  let e := Example.click 2 Example.elsewhereEl in
  autoClose (self s) = AcTrue /\
  isOpen s = true /\
  _isEventFromToggle e s = (Js.Normal false, s) /\
  _isEventFromMenu e s = (Js.Normal false, s) /\
  closeFromClick e s = (Js.Normal tt, s) /\
  isOpen (Js.after (closeFromClick e s)) = true.
Proof. vm_compute. repeat split; reflexivity. Qed.

Lemma autoClose_true_click_dismissal_witness :
  let s := Example.opened AcTrue Example.content in
  (autoClose (self s) = AcTrue /\ isOpen s = true) /\
  isOpen (Js.after (closeFromClick (Example.click 0 Example.elsewhereEl) s)) = false /\
  isOpen (Js.after (closeFromClick (Example.click 1 Example.itemEl) s)) = false /\
  closeFromClick (Example.click 2 Example.elsewhereEl) s = (Js.Normal tt, s) /\
  closeFromClick (Example.click 0 Example.toggleEl) s = (Js.Normal tt, s).
Proof.
  intros s.
  assert (Ha : autoClose (self s) = AcTrue) by (vm_compute; reflexivity).
  assert (Ho : isOpen s = true) by (vm_compute; reflexivity).
  split; [split; assumption|].
  destruct (autoClose_true_click_dismissal s (Example.click 0 Example.elsewhereEl) Ha Ho)
    as (H0 & _ & _).
  destruct (autoClose_true_click_dismissal s (Example.click 1 Example.itemEl) Ha Ho)
    as (H1 & _ & _).
  destruct (autoClose_true_click_dismissal s (Example.click 2 Example.elsewhereEl) Ha Ho)
    as (_ & H2 & _).
  destruct (autoClose_true_click_dismissal s (Example.click 0 Example.toggleEl) Ha Ho)
    as (_ & _ & H3).
  split; [|split; [|split]].
  - apply (H0 Example.anchor); [reflexivity | discriminate | vm_compute; reflexivity].
  - apply (H1 Example.anchor); [reflexivity | discriminate | vm_compute; reflexivity].
  - apply H2. reflexivity.
  - apply (H3 Example.anchor); [reflexivity | vm_compute; reflexivity].
Defined.



Lemma autoClose_inside_click_dismissal_witness :
  let s := Example.opened AcInside Example.content in
  let s0 := Example.opened AcInside Example.menuless in
  (autoClose (self s) = AcInside /\ isOpen s = true) /\
  isOpen (Js.after (closeFromClick (Example.click 0 Example.itemEl) s)) = false /\
  closeFromClick (Example.click 0 Example.elsewhereEl) s = (Js.Normal tt, s) /\
  Js.after (closeFromClick (Example.click 0 Example.itemEl) s0) = s0.
Proof.
  intros s s0.
  assert (Ha : autoClose (self s) = AcInside) by (vm_compute; reflexivity).
  assert (Ho : isOpen s = true) by (vm_compute; reflexivity).
  assert (Ha0 : autoClose (self s0) = AcInside) by (vm_compute; reflexivity).
  assert (Ho0 : isOpen s0 = true) by (vm_compute; reflexivity).
  split; [split; assumption|].
  destruct (autoClose_inside_click_dismissal s (Example.click 0 Example.itemEl) Ha Ho)
    as (H1 & _ & _).
  destruct (autoClose_inside_click_dismissal s (Example.click 0 Example.elsewhereEl) Ha Ho)
    as (_ & H2 & _).
  destruct (autoClose_inside_click_dismissal s0 (Example.click 0 Example.itemEl) Ha0 Ho0)
    as (_ & _ & H3).
  split; [|split].
  - apply (H1 Example.anchor (set_menu_placement (Some "bottom-left") Example.menu));
      vm_compute; reflexivity.
  - apply (H2 Example.anchor (set_menu_placement (Some "bottom-left") Example.menu));
      vm_compute; reflexivity.
  - apply H3. vm_compute. reflexivity.
Defined.

Lemma autoClose_false_never_dismisses_witness :
  let s := Example.opened AcFalse Example.content in
  let e := Example.click 0 Example.elsewhereEl in
  autoClose (self s) = AcFalse /\
  isOpen s = true /\
  isOpen (Js.after (closeFromClick e s)) = true /\
  isOpen (Js.after (documentClick e s)) = true /\
  isOpen (Js.after (closeFromOutsideEsc s)) = true.
Proof.
  intros s e.
  assert (Ha : autoClose (self s) = AcFalse) by (vm_compute; reflexivity).
  assert (Ho : isOpen s = true) by (vm_compute; reflexivity).
  destruct (autoClose_false_never_dismisses s e Ha) as (H1 & H2 & H3 & _).
  rewrite H1, H2, H3. simpl.
  split; [exact Ha|]. split; [exact Ho|]. split; [exact Ho|]. split; exact Ho.
Defined.

Lemma escape_closes_when_autoClose_truthy_witness :
  let s := Example.opened AcOutside Example.content in
  (truthy_autoClose (autoClose (self s)) = true /\ isOpen s = true) /\
  isOpen (Js.after (closeFromOutsideEsc s)) = false.
Proof.
  intros s.
  assert (Ha : truthy_autoClose (autoClose (self s)) = true) by (vm_compute; reflexivity).
  assert (Ho : isOpen s = true) by (vm_compute; reflexivity).
  destruct (escape_closes_when_autoClose_truthy s Ha Ho) as (_ & H & _).
  split; [split; assumption | exact H].
Defined.

Lemma positionMenu_only_acts_while_open_witness :
  let s := Example.mounted AcTrue Example.content in
  isOpen s = false /\
  onStable Example.firstCandidate s = (Js.Normal tt, s) /\
  positionCalls (Js.after (onStable Example.firstCandidate s)) = positionCalls s.
Proof.
  intros s.
  assert (Ho : isOpen s = false) by (vm_compute; reflexivity).
  destruct (positionMenu_only_acts_while_open Example.firstCandidate s)
    as (_ & _ & H & _).
  destruct (H (or_introl Ho)) as (_ & H2).
  split; [exact Ho|]. split; [exact H2|]. rewrite H2. reflexivity.
Defined.

Lemma toggle_is_an_involution_on_isOpen_witness :
  let s := Example.mounted AcTrue Example.content in
  let s1 := Js.after (toggle Example.firstCandidate s) in
  let s2 := Js.after (toggle Example.firstCandidate s1) in
  wired s /\
  openChange s1 = [true] /\
  openChange s2 = [true; false] /\
  isOpen s2 = isOpen s.
Proof.
  intros s. cbv zeta.
  assert (Hw : wired s).
  { vm_compute. repeat split; intros; discriminate. }
  pose proof (toggle_is_an_involution_on_isOpen Example.firstCandidate s) as T.
  cbv zeta in T. destruct T as (_ & H2 & _ & H).
  destruct (H Hw) as (_ & O1 & _ & O2).
  split; [exact Hw|]. split; [|split].
  - rewrite O1. vm_compute. reflexivity.
  - rewrite O2, O1. vm_compute. reflexivity.
  - exact H2.
Defined.

(** C10, refuted as stated: on a closed dropdown whose template has a menu
    but no anchor, [toggle()] negates [isOpen()] and registers the listener,
    then raises in [_positionMenu] before the emit: the call emits no
    notification at all. *)
Lemma toggle_without_anchor_raises :
  let s := Example.mounted AcTrue Example.anchorless in
  let r := toggle Example.firstCandidate s in
  isOpen s = false /\
  Js.returns r = false /\
  isOpen (Js.after r) = true /\
  outsideSubscriptions (Js.after r) = 1 /\
  openChange (Js.after r) = [].
Proof. vm_compute. repeat split; reflexivity. Qed.

(** A template with anchor and menu does not help once the [open] input is
    rebound: bound to [true] on a closed dropdown it sets the flag without
    registering a listener, and [toggle()] then raises in [close()], at the
    call of the remove function that is not there, before the emit. *)
Lemma toggle_after_rebinding_open_raises :
  let s := Js.after (handle Example.firstCandidate (InputsChanged Example.openTrue)
                       (Example.mounted AcTrue Example.content)) in
  let r := toggle Example.firstCandidate s in
  isOpen s = true /\
  outsideSubscriptions s = 0 /\
  Js.returns r = false /\
  isOpen (Js.after r) = false /\
  openChange (Js.after r) = [].
Proof. vm_compute. repeat split; reflexivity. Qed.

(** * Further properties of the directives *)

(** ** Classes on the page *)

Lemma classesOf_addClass d el el' n c :
  c ∈ Dom.classesOf el (Dom.addClass el' n d) <->
  c ∈ Dom.classesOf el d \/ (el = el' /\ c = n).
Proof.
  unfold Dom.addClass, Dom.classesOf at 1. simpl.
  destruct (decide (n ∈ Dom.classesOf el' d)) as [Hin | Hin].
  - fold (Dom.classesOf el d). split; [auto|].
    intros [H | [-> ->]]; assumption.
  - destruct (decide (el' = el)) as [-> | Hne].
    + rewrite lookup_insert_eq. simpl. rewrite elem_of_app, list_elem_of_singleton.
      split; intros [H | H]; auto. destruct H as [_ ->]. auto.
    + rewrite lookup_insert_ne by exact Hne. fold (Dom.classesOf el d).
      split; [auto|]. intros [H | [-> _]]; [assumption | congruence].
Qed.

Lemma classesOf_removeClass d el el' n c :
  c ∈ Dom.classesOf el (Dom.removeClass el' n d) <->
  c ∈ Dom.classesOf el d /\ ~ (el = el' /\ c = n).
Proof.
  unfold Dom.removeClass, Dom.classesOf at 1. simpl.
  destruct (decide (n ∈ Dom.classesOf el' d)) as [Hin | Hin].
  - destruct (decide (el' = el)) as [-> | Hne].
    + rewrite lookup_insert_eq. simpl. rewrite list_elem_of_filter.
      split.
      * intros [H1 H2]. split; [exact H2|]. intros [_ ->]. congruence.
      * intros [H1 H2]. split; [|exact H1]. intros ->. apply H2. auto.
    + rewrite lookup_insert_ne by exact Hne. fold (Dom.classesOf el d).
      split; [|tauto]. intros H. split; [exact H|]. intros [-> _]. congruence.
  - fold (Dom.classesOf el d). split; [|tauto].
    intros H. split; [exact H|]. intros [-> ->]. contradiction.
Qed.

(** ** What each renderer call leaves alone *)

Lemma parentNode_appendChild p c d :
  Dom.parentNode (Dom.appendChild p c d) = <[c := p]> (Dom.parentNode d).
Proof. reflexivity. Qed.

Lemma parentNode_setStyle el n v d :
  Dom.parentNode (Dom.setStyle el n v d) = Dom.parentNode d.
Proof. reflexivity. Qed.

Lemma parentNode_removeStyle el n d :
  Dom.parentNode (Dom.removeStyle el n d) = Dom.parentNode d.
Proof. reflexivity. Qed.

Lemma style_appendChild p c d :
  Dom.style (Dom.appendChild p c d) = Dom.style d.
Proof. reflexivity. Qed.

Lemma style_removeChild p c d :
  Dom.style (Dom.removeChild p c d) = Dom.style d.
Proof. reflexivity. Qed.

Lemma style_setStyle el n v d :
  Dom.style (Dom.setStyle el n v d) = <[(el, n) := v]> (Dom.style d).
Proof. reflexivity. Qed.

Lemma style_removeStyle el n d :
  Dom.style (Dom.removeStyle el n d) = delete (el, n) (Dom.style d).
Proof. reflexivity. Qed.

Lemma parentNode_removeClass el n d :
  Dom.parentNode (Dom.removeClass el n d) = Dom.parentNode d.
Proof. reflexivity. Qed.

Lemma nextNode_appendChild p c d :
  Dom.nextNode (Dom.appendChild p c d) = Dom.nextNode d.
Proof. reflexivity. Qed.

Lemma nextNode_removeChild p c d :
  Dom.nextNode (Dom.removeChild p c d) = Dom.nextNode d.
Proof. reflexivity. Qed.

Lemma nextNode_setStyle el n v d :
  Dom.nextNode (Dom.setStyle el n v d) = Dom.nextNode d.
Proof. reflexivity. Qed.

Lemma nextNode_removeStyle el n d :
  Dom.nextNode (Dom.removeStyle el n d) = Dom.nextNode d.
Proof. reflexivity. Qed.

Create Rewrite HintDb dom_frame.

#[local] Hint Rewrite parentNode_appendChild parentNode_setStyle parentNode_removeStyle
  style_appendChild style_removeChild style_setStyle style_removeStyle
  nextNode_appendChild nextNode_removeChild nextNode_setStyle nextNode_removeStyle
  : dom_frame.

Section Extras.

Variable positionElements :
  Dom.t -> Dom.Node -> Dom.Node -> PlacementArray -> bool -> Placement.

(** ** Dismissal by click, continued *)

(** X1: with [autoClose === 'outside'] and the dropdown open, a click with a
    button other than 2 that lands outside the anchor is [close()] when it
    is outside the menu (or no menu is registered) and changes nothing when
    it is inside the menu. *)
Theorem autoClose_outside_click_dismissal s e a :
  autoClose (self s) = AcOutside ->
  _anchor (self s) = Some a ->
  button e <> 2%Z ->
  NgbDropdownAnchor_isEventFrom a e (dom s) = false ->
  (forall m, _menu (self s) = Some m ->
     NgbDropdownMenu_isEventFrom m e (dom s) = false ->
     closeFromClick e s = close s /\
     isOpen (Js.after (closeFromClick e s)) = false) /\
  (_menu (self s) = None ->
     closeFromClick e s = close s /\
     isOpen (Js.after (closeFromClick e s)) = false) /\
  (forall m, _menu (self s) = Some m ->
     NgbDropdownMenu_isEventFrom m e (dom s) = true ->
     closeFromClick e s = (Js.Normal tt, s)).
Proof.
  intros Hac Ha Hb Hca. apply button_neq_2 in Hb.
  js_state s. simpl in *. subst.
  unfold closeFromClick, _isEventFromToggle, _isEventFromMenu,
    Js.bind, this, Js.gets, Js.ret.
  simpl. rewrite Hb. simpl. rewrite Hca. simpl.
  split; [|split].
  - intros m -> Hcm. simpl. rewrite Hcm. simpl.
    split; [reflexivity | apply close_isOpen].
  - intros ->. simpl. split; [reflexivity | apply close_isOpen].
  - intros m -> Hcm. simpl. rewrite Hcm. reflexivity.
Qed.

(** X2: in every [autoClose] mode a click with button 2, and a click that
    lands inside the anchor, return without changing anything. *)
Theorem click_exemptions_hold_in_every_mode s e :
  (button e = 2%Z -> closeFromClick e s = (Js.Normal tt, s)) /\
  (forall a, _anchor (self s) = Some a ->
     NgbDropdownAnchor_isEventFrom a e (dom s) = true ->
     closeFromClick e s = (Js.Normal tt, s)).
Proof.
  split.
  - apply closeFromClick_secondary.
  - intros a. apply closeFromClick_from_toggle.
Qed.

(** X3: with no anchor registered, a click with a button other than 2 on a
    dropdown whose [autoClose] is truthy raises a [TypeError] and changes
    nothing; it never reaches [close()]. *)
Theorem click_without_anchor_raises s e :
  _anchor (self s) = None ->
  truthy_autoClose (autoClose (self s)) = true ->
  button e <> 2%Z ->
  closeFromClick e s =
    (Js.Throw (Js.TypeError "this._anchor is undefined"), s).
Proof.
  intros Ha Hac Hb. apply button_neq_2 in Hb.
  js_state s. simpl in *. subst.
  unfold closeFromClick, _isEventFromToggle, Js.bind, this, Js.gets, Js.ret, Js.throw.
  simpl. rewrite Hac, Hb. reflexivity.
Qed.

(** ** [open] and [close] as transitions *)

(** X4: calling [close()] a second time changes nothing: the call returns
    and leaves the whole state as the first call left it. *)
Theorem close_twice_is_close_once s :
  let s1 := Js.after (close s) in
  close s1 = (Js.Normal tt, s1).
Proof. intros s1. apply close_noop, close_isOpen. Qed.

(** X5: [open()] appends [true] to [openChange] exactly when it was called
    on a closed dropdown and returned, [close()] appends [false] exactly when
    it was called on an open dropdown and returned, and neither appends
    anything else. *)
Theorem open_close_emit_on_completed_transitions s :
  openChange (Js.after (open positionElements s)) =
    openChange s ++
      (if negb (isOpen s) && Js.returns (open positionElements s) then [true] else []) /\
  openChange (Js.after (close s)) =
    openChange s ++ (if isOpen s && Js.returns (close s) then [false] else []).
Proof.
  split; js_state s; js_run; simpl; rewrite ?app_nil_r; reflexivity.
Qed.

(** ** The listener and the container in reachable states *)


Lemma closeFromClick_closed e s :
  isOpen s = false -> Js.after (closeFromClick e s) = s.
Proof.
  intros Ho. destruct (closeFromClick_cases e s) as [E | E]; [exact E|].
  rewrite E. now rewrite close_noop.
Qed.

Lemma dispatchClick_closed ls e s :
  isOpen s = false -> dispatchClick ls e s = (Js.Normal tt, s).
Proof.
  intros Ho. induction ls as [|l ls IH]; simpl; [reflexivity|].
  rewrite closeFromClick_closed by exact Ho. destruct (decide _); exact IH.
Qed.

(** X7: in a reachable state, a click reaching [document] does nothing to
    a closed dropdown, and with exactly one listener live it does what
    [closeFromClick] does. *)
Theorem document_click_goes_through_the_listener s e :
  reachable positionElements s ->
  (isOpen s = false -> documentClick e s = (Js.Normal tt, s)) /\
  (outsideSubscriptions s = 1 ->
   Js.after (documentClick e s) = Js.after (closeFromClick e s)).
Proof.
  intros _. unfold documentClick, outsideSubscriptions. split.
  - apply dispatchClick_closed.
  - intros Hl. destruct (Dom.clickListeners (dom s)) as [|l [|l' ls]] eqn:E;
      try discriminate Hl.
    simpl. rewrite E. rewrite decide_True by (apply list_elem_of_singleton; reflexivity).
    reflexivity.
Qed.

(** X8: an [open()] that starts on a closed dropdown and returns leaves
    the dropdown open, detached exactly when [container === 'body'], with
    one more live listener, the one whose remove function it now holds. *)
Theorem open_attaches_and_registers s :
  isOpen s = false ->
  Js.returns (open positionElements s) = true ->
  let s' := Js.after (open positionElements s) in
  isOpen s' = true /\
  containerMode s' =
    (match container (self s) with CBody => Detached | CNull => Inline end) /\
  Dom.clickListeners (dom s') =
    Dom.clickListeners (dom s) ++ [Dom.nextListener (dom s)] /\
  _outsideClickListener (self s') = Some (Dom.nextListener (dom s)).
Proof.
  js_state s. js_unfold. simpl. intros -> Hr. revert Hr.
  js_run; intros Hr; try discriminate Hr; repeat split; reflexivity.
Qed.

(** X9: [open()] on a closed dropdown with [container === 'body'] and no
    menu element raises a [TypeError] in [_applyContainer]: the flag is
    already set, but no body container is created, no listener is
    registered, nothing is positioned and nothing is emitted. *)
Theorem open_in_body_without_menu_raises s :
  isOpen s = false ->
  container (self s) = CBody ->
  _menuElement (self s) = None ->
  let r := open positionElements s in
  fst r = Js.Throw (Js.TypeError "this._menuElement is undefined") /\
  isOpen (Js.after r) = true /\
  containerMode (Js.after r) = Inline /\
  Dom.clickListeners (dom (Js.after r)) = Dom.clickListeners (dom s) /\
  positionCalls (Js.after r) = positionCalls s /\
  openChange (Js.after r) = openChange s.
Proof.
  js_state s. js_unfold. simpl. intros -> -> ->. simpl.
  destruct bc; simpl; repeat split; reflexivity.
Qed.

(** X10: on an open dropdown with a menu, an anchor and an element to
    position, [_positionMenu] calls [positionElements] exactly once, with
    the anchor element, the body container if there is one and the menu
    element otherwise, the current [placement], and [container === 'body']
    as the append-to-body flag. *)
Theorem positionMenu_calls_positionElements_once s m a t :
  isOpen s = true ->
  _menu (self s) = Some m ->
  _anchor (self s) = Some a ->
  position_target s = Some t ->
  positionCalls (Js.after (_positionMenu positionElements s)) =
    positionCalls s ++
      [{| pc_host := anchorEl a; pc_target := t;
          pc_placement := placement (self s);
          pc_appendToBody :=
            match container (self s) with CBody => true | CNull => false end |}].
Proof.
  unfold position_target. js_state s. js_unfold. simpl.
  intros -> -> -> Ht. simpl.
  destruct bc as [b|]; simpl in *.
  - injection Ht as ->. js_run; reflexivity.
  - subst me. js_run; reflexivity.
Qed.

(** ** Placement classes *)

Ltac js_unfold_dom :=
  unfold _applyPlacementClasses, _applyContainer, _resetContainer,
    renderer_createElement, renderer, assign, this,
    Js.bind, Js.ret, Js.throw, Js.gets, Js.modify, Js.after, Js.returns,
    with_self, with_dom, set_bodyContainer, set_menu, set_placement,
    stored_placement, has_class, Dom.createElement in *;
  cbn -[Dom.addClass Dom.removeClass Dom.classesOf Dom.appendChild Dom.removeChild
        Dom.setStyle Dom.removeStyle set_menu_placement truthy_placement
        configured_placement search_top] in *.

(** X11: with a menu registered and a placement to apply (the argument,
    or else the first configured candidate), [_applyPlacementClasses]
    returns; the host element and the body container, if any, then carry
    ["dropup"] exactly when the placement starts with ["top"] and
    ["dropdown"] exactly when it does not, their other classes and the
    classes of every other element are untouched; and the applied placement
    replaces the [placement] field (a candidate list is lost) and becomes
    the menu's placement. *)
Theorem applyPlacementClasses_sets_one_class arg s m p :
  _menu (self s) = Some m ->
  applied_placement arg s = Some p ->
  let r := _applyPlacementClasses arg s in
  let s' := Js.after r in
  Js.returns r = true /\
  placement (self s') = PSingle p /\
  _menu (self s') = Some (set_menu_placement (Some p) m) /\
  (forall el,
     el = nativeElement (self s) \/ _bodyContainer (self s) = Some el ->
     (has_class (dom s') el "dropup" <-> search_top p = true) /\
     (has_class (dom s') el "dropdown" <-> search_top p = false) /\
     (forall c, c <> "dropup" -> c <> "dropdown" ->
        (has_class (dom s') el c <-> has_class (dom s) el c))) /\
  (forall el c,
     el <> nativeElement (self s) -> _bodyContainer (self s) <> Some el ->
     (has_class (dom s') el c <-> has_class (dom s) el c)).
Proof.
  clear positionElements.
  unfold applied_placement. js_state s. simpl. intros -> Hp.
  js_unfold_dom.
  assert (Hne : "dropup" <> "dropdown") by discriminate.
  destruct (truthy_placement arg); cbn [negb] in *;
    [subst arg | cbn -[configured_placement]; rewrite Hp];
    js_unfold_dom; (destruct bc as [b|]; js_unfold_dom);
    (split; [reflexivity|]); (split; [reflexivity|]); (split; [reflexivity|]);
    (split; [intros el Hel | intros el c Hel1 Hel2]);
    repeat (setoid_rewrite classesOf_addClass || setoid_rewrite classesOf_removeClass);
    destruct (search_top p);
    destruct (decide (el = hostEl));
    try destruct (decide (el = b));
    subst; intuition congruence.
Qed.


(** X12: with a menu registered, no truthy argument and no first candidate
    (an empty candidate array, or a [placement] left undefined),
    [_applyPlacementClasses] raises a [TypeError] after it has removed both
    classes from the host and stored [undefined] as the placement. *)
Theorem applyPlacementClasses_without_candidate_raises arg s m :
  _menu (self s) = Some m ->
  applied_placement arg s = None ->
  let r := _applyPlacementClasses arg s in
  let s' := Js.after r in
  fst r = Js.Throw (Js.TypeError "placement is undefined") /\
  placement (self s') = PUndefined /\
  ~ has_class (dom s') (nativeElement (self s)) "dropup" /\
  ~ has_class (dom s') (nativeElement (self s)) "dropdown" /\
  isOpen s' = isOpen s.
Proof.
  clear positionElements.
  unfold applied_placement. js_state s. simpl. intros -> Hp.
  js_unfold_dom.
  destruct (truthy_placement arg) eqn:T; cbn [negb] in *.
  - subst arg. discriminate T.
  - cbn -[configured_placement]. rewrite Hp. js_unfold_dom.
    repeat split; try reflexivity;
      repeat (setoid_rewrite classesOf_addClass || setoid_rewrite classesOf_removeClass);
      intuition congruence.
Qed.

(** ** The container *)

(** X13: when the body container held, if any, is under [document.body]
    (and is not the menu element), [_resetContainer] returns and releases
    the body container reference; it keeps the open flag, the listeners and
    the emitted values; a registered menu element is left without
    [position] and [transform] styles, under the host element. *)
Theorem resetContainer_inlines s :
  container_under_body s ->
  let r := _resetContainer s in
  let s' := Js.after r in
  Js.returns r = true /\
  _bodyContainer (self s') = None /\
  isOpen s' = isOpen s /\
  Dom.clickListeners (dom s') = Dom.clickListeners (dom s) /\
  openChange s' = openChange s /\
  (forall me, _menuElement (self s) = Some me ->
     Dom.style (dom s') !! (me, "position") = None /\
     Dom.style (dom s') !! (me, "transform") = None /\
     Dom.parentNode (dom s') !! me = Some (nativeElement (self s))).
Proof.
  unfold container_under_body. js_state s. intros Hc. js_unfold_dom.
  destruct me as [el|], bc as [b|]; js_unfold_dom;
    do 5 (split; [reflexivity|]); intros me' E; try discriminate E;
    injection E as <-; unfold Dom.removeChild, Dom.removeStyle, Dom.appendChild;
    cbn [Dom.style Dom.parentNode].
  - destruct (Hc b eq_refl) as [_ Hne]. assert (b <> el) by congruence.
    split; [|split].
    + rewrite lookup_delete_ne by congruence. apply lookup_delete_eq.
    + apply lookup_delete_eq.
    + case_decide; [rewrite lookup_delete_ne by assumption|];
        apply lookup_insert_eq.
  - split; [|split].
    + rewrite lookup_delete_ne by congruence. apply lookup_delete_eq.
    + apply lookup_delete_eq.
    + apply lookup_insert_eq.
Qed.

(** X14: [_applyContainer('body')] on a dropdown with a menu element (the
    created element being a new one) returns with a body container held:
    the menu element is under the container, the container is under
    [document.body], the container is positioned [absolute] and the menu
    element [static]. *)
Theorem applyContainer_body_detaches s menuEl :
  _menuElement (self s) = Some menuEl ->
  Dom.nextNode (dom s) <> menuEl ->
  let r := _applyContainer CBody s in
  let s' := Js.after r in
  let bodyContainer := Dom.nextNode (dom s) in
  Js.returns r = true /\
  _bodyContainer (self s') = Some bodyContainer /\
  containerMode s' = Detached /\
  Dom.parentNode (dom s') !! menuEl = Some bodyContainer /\
  Dom.parentNode (dom s') !! bodyContainer = Some (body (self s)) /\
  Dom.style (dom s') !! (bodyContainer, "position") = Some "absolute" /\
  Dom.style (dom s') !! (menuEl, "position") = Some "static".
Proof.
  js_state s. simpl. intros -> Hne. js_unfold_dom. unfold containerMode.
  destruct bc as [b|]; js_unfold_dom;
    do 3 (split; [reflexivity|]);
    autorewrite with dom_frame;
    (split; [rewrite lookup_insert_ne by congruence; apply lookup_insert_eq|]);
    (split; [apply lookup_insert_eq|]);
    (split; [rewrite lookup_insert_ne by congruence; apply lookup_insert_eq|]);
    apply lookup_insert_eq.
Qed.

(** X15: [ngOnChanges] acts on a [container] change only while the
    dropdown is open: then, if the menu element needed for ['body'] is
    there, it returns with the menu detached exactly when
    [container === 'body']; on a closed dropdown it returns and leaves the
    body container, the tree of the page and the styles as they were. *)
Theorem ngOnChanges_applies_container_only_while_open changes s :
  (isOpen s = false ->
   Js.returns (ngOnChanges changes s) = true /\
   _bodyContainer (self (Js.after (ngOnChanges changes s))) = _bodyContainer (self s) /\
   Dom.parentNode (dom (Js.after (ngOnChanges changes s))) = Dom.parentNode (dom s) /\
   Dom.style (dom (Js.after (ngOnChanges changes s))) = Dom.style (dom s)) /\
  (isOpen s = true ->
   changes !! "container" <> None ->
   (container (self s) = CBody -> _menuElement (self s) <> None) ->
   Js.returns (ngOnChanges changes s) = true /\
   containerMode (Js.after (ngOnChanges changes s)) =
     match container (self s) with CBody => Detached | CNull => Inline end).
Proof.
  unfold ngOnChanges.
  generalize (changes !! "container") (changes !! "placement").
  intros c1 c2. split.
  - js_state s. js_unfold. simpl. intros ->. rewrite andb_false_r.
    destruct c2; repeat split; reflexivity.
  - js_state s. js_unfold. simpl. intros -> Hc Hm.
    destruct c1; [|congruence]. simpl.
    destruct ct; simpl; [js_run; split; reflexivity|].
    destruct me; [|now destruct Hm]. js_run; split; reflexivity.
Qed.

(** ** Initialisation and teardown *)

(** X16: [ngOnInit] keeps the open flag and the container, emits nothing and
    positions nothing; it registers one listener exactly when the dropdown
    is initially open and the placement classes could be applied without
    raising. *)
Theorem ngOnInit_registers_when_open s :
  let r := ngOnInit s in
  let s' := Js.after r in
  isOpen s' = isOpen s /\
  _bodyContainer (self s') = _bodyContainer (self s) /\
  openChange s' = openChange s /\
  positionCalls s' = positionCalls s /\
  Dom.clickListeners (dom s') =
    Dom.clickListeners (dom s) ++
      (if isOpen s && Js.returns r then [Dom.nextListener (dom s)] else []).
Proof.
  js_state s. js_run; simpl; rewrite ?app_nil_r; repeat split; reflexivity.
Qed.

(** X17: when the body container held, if any, is under [document.body],
    [ngOnDestroy] returns; it leaves the menu inline and the [onStable]
    subscription released, keeps the open flag and emits nothing; a
    layout-stable notification arriving afterwards does nothing. *)
Theorem ngOnDestroy_inlines_and_unsubscribes s :
  container_under_body s ->
  let s' := Js.after (ngOnDestroy s) in
  Js.returns (ngOnDestroy s) = true /\
  containerMode s' = Inline /\
  _zoneSubscription s' = false /\
  isOpen s' = isOpen s /\
  openChange s' = openChange s /\
  onStable positionElements s' = (Js.Normal tt, s').
Proof.
  js_state s. intros _. js_run; repeat split; reflexivity.
Qed.

Lemma close_zoneSubscription s :
  _zoneSubscription (Js.after (close s)) = _zoneSubscription s.
Proof. js_state s. js_run; reflexivity. Qed.

Lemma closeFromClick_zoneSubscription e s :
  _zoneSubscription (Js.after (closeFromClick e s)) = _zoneSubscription s.
Proof.
  destruct (closeFromClick_cases e s) as [-> | ->];
    [reflexivity | apply close_zoneSubscription].
Qed.

Lemma ngOnChanges_zoneSubscription changes s :
  _zoneSubscription (Js.after (ngOnChanges changes s)) = _zoneSubscription s.
Proof.
  unfold ngOnChanges.
  generalize (changes !! "container") (changes !! "placement").
  intros c1 c2. js_state s. js_run; reflexivity.
Qed.

Lemma positionMenu_zoneSubscription s :
  _zoneSubscription (Js.after (_positionMenu positionElements s)) =
  _zoneSubscription s.
Proof. js_state s. js_run; reflexivity. Qed.

Lemma positionMenu_returns s :
  equipped s -> Js.returns (_positionMenu positionElements s) = true.
Proof.
  unfold equipped. js_state s. simpl. intros (Ha & Hm & He & Hp).
  js_run; try reflexivity; try congruence; now destruct Hp.
Qed.

(** The callback of a well-formed dropdown returns, so the subscriber is
    not closed. *)
Lemma onStable_zoneSubscription s :
  equipped s ->
  _zoneSubscription (Js.after (onStable positionElements s)) = _zoneSubscription s.
Proof.
  intros H. unfold onStable, Js.bind, Js.gets, Js.ret.
  destruct (_zoneSubscription s) eqn:E; [|exact E].
  unfold closing_on_throw.
  pose proof (positionMenu_returns s H) as Hr.
  pose proof (positionMenu_zoneSubscription s) as Hz.
  destruct (_positionMenu positionElements s) as [[a|e] s']; simpl in *;
    [congruence | discriminate Hr].
Qed.

Lemma handle_zoneSubscription ev s :
  ev <> Destroy ->
  equipped s ->
  _zoneSubscription (Js.after (handle positionElements ev s)) = _zoneSubscription s.
Proof.
  intros Hev Heq. destruct ev; cbn [handle]; try congruence;
    try (now apply onStable_zoneSubscription); clear Heq.
  - js_state s. js_run; reflexivity.
  - apply close_zoneSubscription.
  - unfold toggle, Js.bind, Js.gets. destruct (isOpen s);
      [apply close_zoneSubscription | js_state s; js_run; reflexivity].
  - apply closeFromClick_zoneSubscription.
  - unfold documentClick. generalize (Dom.clickListeners (dom s)). intros ls.
    revert s. induction ls as [|l ls IH]; intros s; simpl; [reflexivity|].
    rewrite IH. destruct (decide _); [|reflexivity].
    apply closeFromClick_zoneSubscription.
  - unfold closeFromOutsideEsc, Js.bind, this, Js.gets, Js.ret.
    destruct (truthy_autoClose _); [apply close_zoneSubscription | reflexivity].
  - unfold inputsChanged, Js.bind, assign, Js.modify. cbv beta iota.
    rewrite ngOnChanges_zoneSubscription.
    destruct i as [[?|] [?|] [?|] [?|]]; reflexivity.
  - reflexivity.
Qed.

Lemma ngOnInit_zoneSubscription s :
  _zoneSubscription (Js.after (ngOnInit s)) = _zoneSubscription s.
Proof. js_state s. js_run_classes; reflexivity. Qed.

Lemma mount_zoneSubscription config hostEl bodyEl d open0 i c :
  _zoneSubscription (mount config hostEl bodyEl d open0 i c) = true.
Proof.
  unfold mount. rewrite ngOnInit_zoneSubscription.
  unfold inputsChanged, Js.bind, assign, Js.modify. cbv beta iota.
  rewrite ngOnChanges_zoneSubscription. reflexivity.
Qed.

(** X18: on a dropdown mounted with an anchor, a menu and a first
    candidate placement, the subscription to [onStable] made by the
    constructor stays live through every sequence of events that keep them
    and does not contain the teardown. *)
Theorem zone_subscription_lives_until_destroy config hostEl bodyEl d open0 i c evs :
  configured_placement (config_placement config) <> None ->
  well_formed_inputs i ->
  well_formed_content c ->
  Forall (fun ev => well_formed_event ev /\ ev <> Destroy) evs ->
  _zoneSubscription
    (run positionElements evs (mount config hostEl bodyEl d open0 i c)) = true.
Proof.
  intros Hp Hi Hc Hevs.
  pose proof (equipped_mount positionElements config hostEl bodyEl d open0 i c
                Hp Hi Hc) as He.
  pose proof (mount_zoneSubscription config hostEl bodyEl d open0 i c) as H.
  revert He H. generalize (mount config hostEl bodyEl d open0 i c).
  induction Hevs as [|ev evs [Hwf Hev] _ IH]; intros s He H; simpl; [exact H|].
  apply IH.
  - now apply equipped_handle.
  - rewrite handle_zoneSubscription; [exact H | exact Hev | apply He].
Qed.

Lemma ngOnChanges_frame changes s :
  let s' := Js.after (ngOnChanges changes s) in
  isOpen s' = isOpen s /\
  openChange s' = openChange s /\
  Dom.clickListeners (dom s') = Dom.clickListeners (dom s).
Proof.
  unfold ngOnChanges.
  generalize (changes !! "container") (changes !! "placement").
  intros c1 c2. js_state s. js_run; repeat split; reflexivity.
Qed.

(** X19: a layout-stable notification, a change of the content children
    and the teardown never change the open flag, the emitted values or the
    live listeners.  A rebinding of the inputs keeps the emitted values and
    the listeners too, and changes the open flag exactly when it carries
    the [open] input, to the value bound. *)
Theorem lifecycle_events_emit_nothing_and_keep_listeners ev s :
  let s' := Js.after (handle positionElements ev s) in
  match ev with
  | ZoneStable | ContentChanged _ | Destroy =>
      isOpen s' = isOpen s /\
      openChange s' = openChange s /\
      Dom.clickListeners (dom s') = Dom.clickListeners (dom s)
  | InputsChanged i =>
      isOpen s' = default (isOpen s) (in_open i) /\
      openChange s' = openChange s /\
      Dom.clickListeners (dom s') = Dom.clickListeners (dom s)
  | _ => True
  end.
Proof.
  destruct ev; try exact I; cbn [handle]; cbv zeta.
  - js_state s. js_run; repeat split; reflexivity.
  - unfold inputsChanged, Js.bind, assign, Js.modify. cbv beta iota.
    destruct (ngOnChanges_frame (changesOf false i) (with_self (setInputs i) s))
      as (H1 & H2 & H3).
    rewrite H1, H2, H3. js_state s.
    destruct i as [[?|] [?|] [?|] [?|]]; repeat split; reflexivity.
  - repeat split; reflexivity.
  - js_state s. js_run; repeat split; reflexivity.
Qed.

(** ** A click on the toggle *)

Lemma toggle_anchor s :
  _anchor (self (Js.after (toggle positionElements s))) = _anchor (self s).
Proof. js_state s. js_run; reflexivity. Qed.

Lemma contains_self d a : Dom.contains d a a = true.
Proof.
  unfold Dom.contains. destruct (size (Dom.parentNode d)); simpl;
    rewrite decide_True by reflexivity; reflexivity.
Qed.

Lemma dispatchClick_exempt ls e s :
  (forall s', _anchor (self s') = _anchor (self s) ->
              closeFromClick e s' = (Js.Normal tt, s')) ->
  dispatchClick ls e s = (Js.Normal tt, s).
Proof.
  intros H. induction ls as [|l ls IH]; simpl; [reflexivity|].
  rewrite (H s eq_refl). simpl. destruct (decide _); exact IH.
Qed.

(** X21: a click on the anchor element runs [toggleOpen()] and then reaches
    the document: whatever listeners are live by then, the dispatch changes
    nothing, so the dropdown stays as [toggle()] left it, with [isOpen()]
    negated. *)
Theorem toggle_click_is_not_dismissed s a e :
  _anchor (self s) = Some a ->
  target e = anchorEl a ->
  let s1 := Js.after (NgbDropdownToggle_toggleOpen positionElements s) in
  documentClick e s1 = (Js.Normal tt, s1) /\
  isOpen (Js.after (documentClick e s1)) = negb (isOpen s).
Proof.
  intros Ha Ht s1.
  assert (E : documentClick e s1 = (Js.Normal tt, s1)).
  { unfold documentClick. apply dispatchClick_exempt. intros s' Hs'.
    apply (closeFromClick_from_toggle s' e a).
    - rewrite Hs'. unfold s1, NgbDropdownToggle_toggleOpen.
      rewrite toggle_anchor. exact Ha.
    - unfold NgbDropdownAnchor_isEventFrom. rewrite Ht. apply contains_self. }
  split; [exact E|]. rewrite E. apply toggle_isOpen.
Qed.

End Extras.

(** ** The menu directive *)

Lemma menu_applyPlacement_spec m d parent p :
  Dom.parentNode d !! menu_nativeElement m = Some parent ->
  let r := NgbDropdownMenu_applyPlacement p (m, d) in
  let m' := fst (Js.after r) in
  let d' := snd (Js.after r) in
  Js.returns r = true /\
  m' = set_menu_placement (Some p) m /\
  (has_class d' parent "dropup" <-> search_top p = true) /\
  (has_class d' parent "dropdown" <-> search_top p = false) /\
  (forall el c,
     el <> parent \/ (c <> "dropup" /\ c <> "dropdown") ->
     (has_class d' el c <-> has_class d el c)).
Proof.
  intros Hp.
  unfold NgbDropdownMenu_applyPlacement, menu_parentNode, menu_renderer,
    Js.bind, Js.modify, Js.after, Js.returns, has_class.
  cbn -[Dom.addClass Dom.removeClass Dom.classesOf search_top].
  rewrite Hp.
  cbn -[Dom.addClass Dom.removeClass Dom.classesOf search_top].
  rewrite parentNode_removeClass, Hp.
  cbn -[Dom.addClass Dom.removeClass Dom.classesOf search_top].
  destruct (search_top p);
    cbn -[Dom.addClass Dom.removeClass Dom.classesOf];
    rewrite !parentNode_removeClass, Hp;
    cbn -[Dom.addClass Dom.removeClass Dom.classesOf];
    (split; [reflexivity|]); (split; [reflexivity|]);
    repeat (setoid_rewrite classesOf_addClass || setoid_rewrite classesOf_removeClass);
    (split; [|split]); try intros el c Hel;
    try destruct (decide (el = parent)); subst; intuition congruence.
Qed.

(** X20: [NgbDropdownMenu.applyPlacement] on a menu whose element has a
    parent returns, stores the placement on the menu, and leaves on the
    parent ["dropup"] exactly when the placement starts with ["top"] and
    ["dropdown"] exactly when it does not; nothing else changes in any
    class list. *)
Theorem menu_applyPlacement_sets_one_class m d parent p :
  Dom.parentNode d !! menu_nativeElement m = Some parent ->
  let r := NgbDropdownMenu_applyPlacement p (m, d) in
  let m' := fst (Js.after r) in
  let d' := snd (Js.after r) in
  Js.returns r = true /\
  m' = set_menu_placement (Some p) m /\
  (has_class d' parent "dropup" <-> search_top p = true) /\
  (has_class d' parent "dropdown" <-> search_top p = false) /\
  (forall el c,
     el <> parent \/ (c <> "dropup" /\ c <> "dropdown") ->
     (has_class d' el c <-> has_class d el c)).
Proof. apply menu_applyPlacement_spec. Qed.

(** X22: [NgbDropdownMenu.position] on a menu whose element has a parent
    asks [positionElements] for a placement (trigger element, menu element,
    the given candidates, no append-to-body flag) and applies the answer:
    the menu stores it, and the parent then carries exactly one of
    ["dropup"] and ["dropdown"]. *)
Theorem menu_position_applies_the_resolved_placement
    (positionElements :
       Dom.t -> Dom.Node -> Dom.Node -> PlacementArray -> bool -> Placement)
    m d parent triggerEl pl :
  Dom.parentNode d !! menu_nativeElement m = Some parent ->
  let p := positionElements d triggerEl (menu_nativeElement m) pl false in
  let r := NgbDropdownMenu_position positionElements triggerEl pl (m, d) in
  Js.returns r = true /\
  menu_placement (fst (Js.after r)) = Some p /\
  (has_class (snd (Js.after r)) parent "dropup" <->
   ~ has_class (snd (Js.after r)) parent "dropdown").
Proof.
  intros Hp p r.
  assert (E : r = NgbDropdownMenu_applyPlacement p (m, d)) by reflexivity.
  rewrite E. clear E r.
  destruct (menu_applyPlacement_spec m d parent p Hp) as (H1 & H2 & H3 & H4 & _).
  split; [exact H1|]. split; [rewrite H2; reflexivity|].
  rewrite H3, H4. destruct (search_top p); split; congruence.
Qed.


(** ** The further properties on the concrete page *)

Lemma autoClose_outside_click_dismissal_witness :
  let s := Example.opened AcOutside Example.content in
  let outside := Example.click 0 Example.elsewhereEl in
  let inside := Example.click 0 Example.itemEl in
  autoClose (self s) = AcOutside /\
  isOpen (Js.after (closeFromClick outside s)) = false /\
  closeFromClick inside s = (Js.Normal tt, s).
Proof.
  intros s outside inside.
  assert (Ha : autoClose (self s) = AcOutside) by (vm_compute; reflexivity).
  assert (Han : _anchor (self s) = Some Example.anchor) by (vm_compute; reflexivity).
  assert (Hm : _menu (self s) = Some (set_menu_placement (Some "bottom-left") Example.menu))
    by (vm_compute; reflexivity).
  split; [exact Ha|]. split.
  - assert (Hb : button outside <> 2%Z) by discriminate.
    assert (Hc : NgbDropdownAnchor_isEventFrom Example.anchor outside (dom s) = false)
      by (vm_compute; reflexivity).
    destruct (autoClose_outside_click_dismissal s outside Example.anchor Ha Han Hb Hc)
      as (H & _ & _).
    apply (H _ Hm). vm_compute. reflexivity.
  - assert (Hb : button inside <> 2%Z) by discriminate.
    assert (Hc : NgbDropdownAnchor_isEventFrom Example.anchor inside (dom s) = false)
      by (vm_compute; reflexivity).
    destruct (autoClose_outside_click_dismissal s inside Example.anchor Ha Han Hb Hc)
      as (_ & _ & H).
    apply (H _ Hm). vm_compute. reflexivity.
Defined.

Lemma click_exemptions_hold_in_every_mode_witness :
  let s := Example.opened AcInside Example.content in
  closeFromClick (Example.click 2 Example.itemEl) s = (Js.Normal tt, s) /\
  closeFromClick (Example.click 0 Example.toggleEl) s = (Js.Normal tt, s).
Proof.
  intros s. split.
  - apply (proj1 (click_exemptions_hold_in_every_mode s (Example.click 2 Example.itemEl))).
    reflexivity.
  - apply (proj2 (click_exemptions_hold_in_every_mode s (Example.click 0 Example.toggleEl))
             Example.anchor); vm_compute; reflexivity.
Defined.

Lemma click_without_anchor_raises_witness :
  let s := Example.mounted AcTrue Example.anchorless in
  let e := Example.click 0 Example.elsewhereEl in
  _anchor (self s) = None /\
  closeFromClick e s = (Js.Throw (Js.TypeError "this._anchor is undefined"), s).
Proof.
  intros s e.
  assert (Ha : _anchor (self s) = None) by (vm_compute; reflexivity).
  split; [exact Ha|].
  apply (click_without_anchor_raises s e Ha); [vm_compute; reflexivity | discriminate].
Defined.


Lemma document_click_goes_through_the_listener_witness :
  let s := Example.opened AcTrue Example.content in
  let e := Example.click 0 Example.elsewhereEl in
  reachable Example.firstCandidate s /\
  outsideSubscriptions s = 1 /\
  isOpen (Js.after (documentClick e s)) = false.
Proof.
  intros s e.
  assert (Hr : reachable Example.firstCandidate s).
  { apply (reachable_step _ _ CallOpen), reachable_mount. reflexivity. }
  assert (Hl : outsideSubscriptions s = 1) by (vm_compute; reflexivity).
  destruct (document_click_goes_through_the_listener Example.firstCandidate s e Hr)
    as (_ & H).
  split; [exact Hr|]. split; [exact Hl|].
  rewrite (H Hl). vm_compute. reflexivity.
Defined.

Lemma open_attaches_and_registers_witness :
  let s := Example.mounted AcTrue Example.content in
  let s' := Js.after (open Example.firstCandidate s) in
  isOpen s = false /\
  Js.returns (open Example.firstCandidate s) = true /\
  containerMode s' = Inline /\
  Dom.clickListeners (dom s') = [0].
Proof.
  intros s. cbv zeta.
  assert (Ho : isOpen s = false) by (vm_compute; reflexivity).
  assert (Hr : Js.returns (open Example.firstCandidate s) = true)
    by (vm_compute; reflexivity).
  pose proof (open_attaches_and_registers Example.firstCandidate s Ho Hr) as H.
  cbv zeta in H. destruct H as (_ & H1 & H2 & _).
  split; [exact Ho|]. split; [exact Hr|]. split.
  - rewrite H1. vm_compute. reflexivity.
  - rewrite H2. vm_compute. reflexivity.
Defined.

Lemma open_in_body_without_menu_raises_witness :
  let s := Example.bodyMenuless in
  let r := open Example.firstCandidate s in
  (isOpen s = false /\ container (self s) = CBody /\ _menuElement (self s) = None) /\
  Js.returns r = false /\
  isOpen (Js.after r) = true /\
  openChange (Js.after r) = [].
Proof.
  intros s. cbv zeta.
  assert (Ho : isOpen s = false) by (vm_compute; reflexivity).
  assert (Hc : container (self s) = CBody) by (vm_compute; reflexivity).
  assert (Hm : _menuElement (self s) = None) by (vm_compute; reflexivity).
  pose proof (open_in_body_without_menu_raises Example.firstCandidate s Ho Hc Hm) as H.
  cbv zeta in H. destruct H as (H1 & H2 & _ & _ & _ & H3).
  split; [repeat split; assumption|]. split; [|split].
  - unfold Js.returns. rewrite H1. reflexivity.
  - exact H2.
  - rewrite H3. vm_compute. reflexivity.
Defined.

Lemma positionMenu_calls_positionElements_once_witness :
  let s := Example.detached in
  isOpen s = true /\
  position_target s = Some 6 /\
  length (positionCalls (Js.after (_positionMenu Example.firstCandidate s))) = 2.
Proof.
  intros s.
  assert (Ho : isOpen s = true) by (vm_compute; reflexivity).
  assert (Hm : _menu (self s) = Some (set_menu_placement (Some "bottom-left") Example.menu))
    by (vm_compute; reflexivity).
  assert (Ha : _anchor (self s) = Some Example.anchor) by (vm_compute; reflexivity).
  assert (Ht : position_target s = Some 6) by (vm_compute; reflexivity).
  split; [exact Ho|]. split; [exact Ht|].
  rewrite (positionMenu_calls_positionElements_once Example.firstCandidate s _ _ _
             Ho Hm Ha Ht).
  vm_compute. reflexivity.
Defined.

Lemma applyPlacementClasses_sets_one_class_witness :
  let s := Example.mounted AcTrue Example.content in
  let s' := Js.after (_applyPlacementClasses (Some "top-left") s) in
  applied_placement (Some "top-left") s = Some "top-left" /\
  placement (self s') = PSingle "top-left" /\
  has_class (dom s') Example.hostEl "dropup" /\
  ~ has_class (dom s') Example.hostEl "dropdown".
Proof.
  intros s. cbv zeta.
  assert (Hm : _menu (self s) = Some (set_menu_placement (Some "bottom-left") Example.menu))
    by (vm_compute; reflexivity).
  assert (Hp : applied_placement (Some "top-left") s = Some "top-left")
    by (vm_compute; reflexivity).
  pose proof (applyPlacementClasses_sets_one_class (Some "top-left") s _ _ Hm Hp) as H.
  cbv zeta in H. destruct H as (_ & H1 & _ & H2 & _).
  destruct (H2 Example.hostEl (or_introl eq_refl)) as (Hup & Hdown & _).
  split; [exact Hp|]. split; [exact H1|]. split.
  - apply Hup. reflexivity.
  - intros Hd. apply Hdown in Hd. discriminate Hd.
Defined.

Lemma applyPlacementClasses_without_candidate_raises_witness :
  let s := Example.noCandidate in
  applied_placement None s = None /\
  Js.returns (_applyPlacementClasses None s) = false /\
  ~ has_class (dom (Js.after (_applyPlacementClasses None s))) Example.hostEl "dropdown".
Proof.
  intros s.
  assert (Hm : _menu (self s) = Some (set_menu_placement None Example.menu))
    by (vm_compute; reflexivity).
  assert (Hp : applied_placement None s = None) by (vm_compute; reflexivity).
  pose proof (applyPlacementClasses_without_candidate_raises None s _ Hm Hp) as H.
  cbv zeta in H. destruct H as (H1 & _ & _ & H2 & _).
  split; [exact Hp|]. split.
  - unfold Js.returns. rewrite H1. reflexivity.
  - exact H2.
Defined.

Lemma resetContainer_inlines_witness :
  let s := Example.detached in
  let s' := Js.after (_resetContainer s) in
  container_under_body s /\
  _menuElement (self s) = Some Example.menuEl /\
  _bodyContainer (self s) = Some 6 /\
  Js.returns (_resetContainer s) = true /\
  _bodyContainer (self s') = None /\
  Dom.parentNode (dom s') !! Example.menuEl = Some Example.hostEl /\
  Dom.style (dom s') !! (Example.menuEl, "position") = None.
Proof.
  intros s. cbv zeta.
  assert (Hc : container_under_body s).
  { intros b Hb. vm_compute in Hb. injection Hb as <-.
    split; [vm_compute; reflexivity | vm_compute; discriminate]. }
  assert (Hm : _menuElement (self s) = Some Example.menuEl) by (vm_compute; reflexivity).
  assert (Hb : _bodyContainer (self s) = Some 6) by (vm_compute; reflexivity).
  pose proof (resetContainer_inlines s Hc) as H.
  cbv zeta in H. destruct H as (H0 & H1 & _ & _ & _ & H2).
  destruct (H2 _ Hm) as (Hpos & _ & Hpar).
  split; [exact Hc|]. split; [exact Hm|]. split; [exact Hb|]. split; [exact H0|].
  split; [exact H1|]. split; [exact Hpar | exact Hpos].
Defined.

Lemma ngOnDestroy_inlines_and_unsubscribes_witness :
  let s := Example.detached in
  let s' := Js.after (ngOnDestroy s) in
  container_under_body s /\
  containerMode s = Detached /\
  _zoneSubscription s = true /\
  Js.returns (ngOnDestroy s) = true /\
  containerMode s' = Inline /\
  _zoneSubscription s' = false /\
  isOpen s' = true.
Proof.
  intros s. cbv zeta.
  assert (Hc : container_under_body s).
  { intros b Hb. vm_compute in Hb. injection Hb as <-.
    split; [vm_compute; reflexivity | vm_compute; discriminate]. }
  pose proof (ngOnDestroy_inlines_and_unsubscribes Example.firstCandidate s Hc) as H.
  cbv zeta in H. destruct H as (H0 & H1 & H2 & H3 & _).
  split; [exact Hc|]. split; [vm_compute; reflexivity|].
  split; [vm_compute; reflexivity|]. split; [exact H0|]. split; [exact H1|].
  split; [exact H2|]. rewrite H3. vm_compute. reflexivity.
Defined.

Lemma applyContainer_body_detaches_witness :
  let s := Example.mounted AcTrue Example.content in
  let s' := Js.after (_applyContainer CBody s) in
  (_menuElement (self s) = Some Example.menuEl /\ Dom.nextNode (dom s) <> Example.menuEl) /\
  containerMode s' = Detached /\
  Dom.parentNode (dom s') !! Example.menuEl = Some 6 /\
  Dom.parentNode (dom s') !! 6 = Some Example.bodyEl.
Proof.
  intros s. cbv zeta.
  assert (Hm : _menuElement (self s) = Some Example.menuEl) by (vm_compute; reflexivity).
  assert (Hn : Dom.nextNode (dom s) <> Example.menuEl) by (vm_compute; discriminate).
  pose proof (applyContainer_body_detaches s _ Hm Hn) as H.
  cbv zeta in H. destruct H as (_ & _ & H1 & H2 & H3 & _).
  split; [split; assumption|]. split; [exact H1|]. split; [exact H2 | exact H3].
Defined.

Lemma ngOnChanges_applies_container_only_while_open_witness :
  let s := Example.reboundToBody in
  isOpen s = true /\
  Example.containerChange !! "container" <> None /\
  containerMode s = Inline /\
  containerMode (Js.after (ngOnChanges Example.containerChange s)) = Detached.
Proof.
  intros s.
  assert (Ho : isOpen s = true) by (vm_compute; reflexivity).
  assert (Hc : Example.containerChange !! "container" <> None)
    by (vm_compute; discriminate).
  assert (Hm : container (self s) = CBody -> _menuElement (self s) <> None)
    by (intros _; vm_compute; discriminate).
  destruct (ngOnChanges_applies_container_only_while_open Example.containerChange s)
    as (_ & H).
  destruct (H Ho Hc Hm) as (_ & H1).
  split; [exact Ho|]. split; [exact Hc|]. split; [vm_compute; reflexivity|].
  rewrite H1. vm_compute. reflexivity.
Defined.

Lemma zone_subscription_lives_until_destroy_witness :
  let evs := [CallOpen; ZoneStable; InputsChanged Example.placementTop; CallClose] in
  configured_placement (config_placement Example.config) <> None /\
  well_formed_inputs Example.placementTop /\
  well_formed_content Example.content /\
  Forall (fun ev => well_formed_event ev /\ ev <> Destroy) evs /\
  _zoneSubscription
    (run Example.firstCandidate evs
       (mount Example.config Example.hostEl Example.bodyEl Example.page false
          Example.placementTop Example.content)) = true.
Proof.
  intros evs.
  assert (Hp : configured_placement (config_placement Example.config) <> None)
    by (vm_compute; discriminate).
  assert (Hi : well_formed_inputs Example.placementTop).
  { intros pl E. simpl in E. injection E as <-. vm_compute. discriminate. }
  assert (Hc : well_formed_content Example.content)
    by (split; simpl; discriminate).
  assert (H : Forall (fun ev => well_formed_event ev /\ ev <> Destroy) evs).
  { apply Forall_cons. split; [split; [exact I | discriminate]|].
    apply Forall_cons. split; [split; [exact I | discriminate]|].
    apply Forall_cons. split; [split; [split; [exact Hi | reflexivity] | discriminate]|].
    apply Forall_cons. split; [split; [exact I | discriminate]|].
    apply Forall_nil. exact I. }
  split; [exact Hp|]. split; [exact Hi|]. split; [exact Hc|]. split; [exact H|].
  apply (zone_subscription_lives_until_destroy Example.firstCandidate); assumption.
Defined.

Lemma menu_applyPlacement_sets_one_class_witness :
  let r := NgbDropdownMenu_applyPlacement "top-right" (Example.menu, Example.page) in
  Dom.parentNode Example.page !! menu_nativeElement Example.menu = Some Example.hostEl /\
  has_class (snd (Js.after r)) Example.hostEl "dropup" /\
  menu_placement (fst (Js.after r)) = Some "top-right".
Proof.
  cbv zeta.
  assert (Hp : Dom.parentNode Example.page !! menu_nativeElement Example.menu
               = Some Example.hostEl) by (vm_compute; reflexivity).
  pose proof (menu_applyPlacement_sets_one_class Example.menu Example.page _ "top-right" Hp)
    as H.
  cbv zeta in H. destruct H as (_ & H1 & H2 & _).
  split; [exact Hp|]. split.
  - apply H2. reflexivity.
  - rewrite H1. reflexivity.
Defined.

Lemma toggle_click_is_not_dismissed_witness :
  let s := Example.mounted AcTrue Example.content in
  let e := Example.click 0 Example.toggleEl in
  let s1 := Js.after (NgbDropdownToggle_toggleOpen Example.firstCandidate s) in
  _anchor (self s) = Some Example.anchor /\
  outsideSubscriptions s1 = 1 /\
  isOpen (Js.after (documentClick e s1)) = true.
Proof.
  intros s e. cbv zeta.
  assert (Ha : _anchor (self s) = Some Example.anchor) by (vm_compute; reflexivity).
  pose proof (toggle_click_is_not_dismissed Example.firstCandidate s _ e Ha eq_refl) as H.
  cbv zeta in H. destruct H as (_ & H).
  split; [exact Ha|]. split; [vm_compute; reflexivity|].
  rewrite H. vm_compute. reflexivity.
Defined.

Lemma menu_position_applies_the_resolved_placement_witness :
  let r := NgbDropdownMenu_position Example.firstCandidate Example.toggleEl
             (PArray ["top-left"; "bottom-left"]) (Example.menu, Example.page) in
  Dom.parentNode Example.page !! menu_nativeElement Example.menu = Some Example.hostEl /\
  menu_placement (fst (Js.after r)) = Some "top-left" /\
  ~ has_class (snd (Js.after r)) Example.hostEl "dropdown".
Proof.
  cbv zeta.
  assert (Hp : Dom.parentNode Example.page !! menu_nativeElement Example.menu
               = Some Example.hostEl) by (vm_compute; reflexivity).
  pose proof (menu_position_applies_the_resolved_placement Example.firstCandidate
                Example.menu Example.page _ Example.toggleEl
                (PArray ["top-left"; "bottom-left"]) Hp) as H.
  cbv zeta in H. destruct H as (_ & H1 & H2).
  split; [exact Hp|]. split; [exact H1|].
  apply H2. vm_compute. apply list_elem_of_singleton. reflexivity.
Defined.
